(** * convert_paddle_to_mnn.py: the OCR model conversion pipeline

    A shallow embedding of [src/convert_paddle_to_mnn.py] and the
    properties of its conversion pipeline: format detection, the three
    conversion stages, the per-model pipeline [convert_model] and the
    batch loop of [main].

    The script works on a file system and drives two external tools.  The
    embedding threads an explicit [World] (directories with their entries,
    and a trace of what the run did) through a state-and-exception monad.
    The external tools, the YAML parser and Python's [repr] of containers
    are parameters of the development: every theorem holds whatever they
    do.  Console output ([print]) is not part of the world. *)

From stdpp Require Import base option list strings gmap pretty sorting.
From Stdlib Require Import ZArith Ascii String.

Local Open Scope string_scope.
Set Warnings "-register-all".

(** ** Paths, directories, the world *)

(** A [pathlib.Path], as the list of its parts. *)
Definition Path := list string.

(** [Path.name]: the final component. *)
Definition path_name (p : Path) : string := List.last p "".

(** [class InputFormat(Enum)]. *)
Inductive InputFormat := PADDLE | ONNX | AUTO.

#[global] Instance InputFormat_eq_dec : EqDecision InputFormat.
Proof. solve_decision. Defined.

(** The three conversion functions of the script. *)
Inductive stage := PaddleToOnnx | OnnxToMnn | ExtractDict.

(** A directory is either a listing of its entries (name and content, in
    the order the operating system enumerates them), or a directory the
    process has no permission on: [stat] on an entry of it fails with
    EACCES, which [Path.exists] re-raises as [PermissionError] (pathlib
    turns only ENOENT, ENOTDIR, EBADF and ELOOP into [False]), while
    [Path.glob] swallows the [PermissionError] of the scan and yields
    nothing. *)
Inductive Dir :=
| Denied
| Listing (entries : list (string * string)).

(** What a run does, in order.  [EnterStage] marks the entry of one of the
    three conversion functions; the others are the effects of
    [subprocess.run] and [open]. *)
Inductive event :=
| EnterStage (s : stage)
| Spawn (cmd : list string) (cwd : Path)
| OpenRead (d : Path) (name : string)
| OpenWrite (d : Path) (name : string).

Record World := mkWorld {
  fs : gmap Path Dir;
  trace : list event
}.

Definition log (e : event) (w : World) : World :=
  mkWorld (fs w) (trace w ++ [e])%list.

Definition set_fs (f : gmap Path Dir) (w : World) : World :=
  mkWorld f (trace w).

(** ** Exceptions and the monad of the script *)

(** The exceptions the script can meet; all are subclasses of
    [Exception]. *)
Inductive exn :=
  PermissionError | FileNotFoundError | TypeError | KeyError | YAMLError | SubprocessError.

Inductive Res (A : Type) :=
| Ok (a : A)
| Raise (e : exn).
Arguments Ok {A} a.
Arguments Raise {A} e.

Definition M (A : Type) : Type := World -> Res A * World.

Definition ret {A} (a : A) : M A := fun w => (Ok a, w).

Definition raise {A} (e : exn) : M A := fun w => (Raise e, w).

Definition bind {A B} (m : M A) (k : A -> M B) : M B := fun w =>
  match m w with
  | (Ok a, w') => k a w'
  | (Raise e, w') => (Raise e, w')
  end.

(** [try: body / except Exception as e: handler]. The state reached when
    the exception was raised is the one the handler starts from. *)
Definition try_except {A} (body : M A) (handler : exn -> M A) : M A := fun w =>
  match body w with
  | (Ok a, w') => (Ok a, w')
  | (Raise e, w') => handler e w'
  end.

Definition lift {A} (r : Res A) : M A := fun w => (r, w).

Definition emit (e : event) : M unit := fun w => (Ok tt, log e w).

Notation "'let*' x ':=' m 'in' k" := (bind m (fun x => k))
  (at level 10, x name, m at level 200, k at level 200).
Notation "m '>>' k" := (bind m (fun _ => k))
  (at level 90, right associativity).

(** [for x in xs: body x]. *)
Fixpoint for_each {A} (xs : list A) (body : A -> M unit) : M unit :=
  match xs with
  | [] => ret tt
  | x :: xs' => body x >> for_each xs' body
  end.

(** ** File-system primitives *)

Fixpoint entry_lookup (name : string) (es : list (string * string)) : option string :=
  match es with
  | [] => None
  | (n, c) :: es' => if String.eqb n name then Some c else entry_lookup name es'
  end.

(** Replace the content of [name], or add it as a new entry. *)
Fixpoint entry_store (name content : string) (es : list (string * string))
  : list (string * string) :=
  match es with
  | [] => [(name, content)]
  | (n, c) :: es' =>
      if String.eqb n name then (n, content) :: es'
      else (n, c) :: entry_store name content es'
  end.

(** The content of file [name] of directory [d], when both are there and
    readable. *)
Definition file_content (w : World) (d : Path) (name : string) : option string :=
  match fs w !! d with
  | Some (Listing es) => entry_lookup name es
  | _ => None
  end.

Definition has_file (w : World) (d : Path) (name : string) : bool :=
  bool_decide (is_Some (file_content w d name)).

(** [(d / name).exists()]. *)
Definition path_exists (d : Path) (name : string) : M bool := fun w =>
  match fs w !! d with
  | Some Denied => (Raise PermissionError, w)
  | _ => (Ok (has_file w d name), w)
  end.

(** [open(d / name, 'r')] followed by reading the whole file. *)
Definition read_file (d : Path) (name : string) : M string := fun w =>
  let w1 := log (OpenRead d name) w in
  match fs w !! d with
  | Some Denied => (Raise PermissionError, w)
  | Some (Listing es) =>
      match entry_lookup name es with
      | Some c => (Ok c, w1)
      | None => (Raise FileNotFoundError, w)
      end
  | None => (Raise FileNotFoundError, w)
  end.

(** [open(d / name, 'w')]: the file is created, or truncated. *)
Definition open_write (d : Path) (name : string) : M unit := fun w =>
  match fs w !! d with
  | Some Denied => (Raise PermissionError, w)
  | Some (Listing es) =>
      (Ok tt, log (OpenWrite d name)
                (set_fs (<[d := Listing (entry_store name "" es)]> (fs w)) w))
  | None => (Raise FileNotFoundError, w)
  end.

(** [f.write(s)] on the file opened by [open_write]: [s] is appended. *)
Definition f_write (d : Path) (name : string) (s : string) : M unit := fun w =>
  match fs w !! d with
  | Some (Listing es) =>
      match entry_lookup name es with
      | Some c => (Ok tt, set_fs (<[d := Listing (entry_store name (c +:+ s) es)]> (fs w)) w)
      | None => (Ok tt, set_fs (<[d := Listing (entry_store name s es)]> (fs w)) w)
      end
  | _ => (Ok tt, w)
  end.

(** [fnmatch] of a name against [*.onnx]: the name ends in [.onnx]. *)
Definition endswith (s suf : string) : bool :=
  (String.length suf <=? String.length s)%nat
  && String.eqb (substring (String.length s - String.length suf) (String.length suf) s) suf.

Definition entries_of (w : World) (d : Path) : list (string * string) :=
  match fs w !! d with
  | Some (Listing es) => es
  | _ => []
  end.

(** [d.glob("*.onnx")], as the list of the names found, in scan order. *)
Definition glob_onnx (w : World) (d : Path) : list string :=
  List.filter (fun n => endswith n ".onnx") (List.map fst (entries_of w d)).

(** [str.rfind(c)]. *)
Fixpoint rfind (c : ascii) (s : string) : option nat :=
  match s with
  | EmptyString => None
  | String a s' =>
      match rfind c s' with
      | Some i => Some (S i)
      | None => if Ascii.eqb a c then Some 0%nat else None
      end
  end.

(** [PurePath.stem]: the name without its last suffix; a name whose only
    dot is the leading one, or the trailing one, has no suffix. *)
Definition stem (name : string) : string :=
  match rfind "."%char name with
  | Some i =>
      if (0 <? i)%nat && (i <? String.length name - 1)%nat
      then substring 0 i name
      else name
  | None => name
  end.

(** ** Values loaded from YAML, and the Python operations on them *)

(** What [yaml.safe_load] builds.  [YNull] is [None].  [YOther] stands for
    the remaining scalars (float, date, timestamp), which the script sees
    only through their truth value and their [str].  A [YDict] lists the
    items of a Python dict in insertion order; its keys are distinct. *)
Inductive yaml :=
| YNull
| YBool (b : bool)
| YInt (z : Z)
| YStr (s : string)
| YOther (truthy : bool) (text : string)
| YList (items : list yaml)
| YDict (kv : list (yaml * yaml)).

Definition key_is (k : string) (y : yaml) : bool :=
  match y with
  | YStr s => String.eqb s k
  | _ => false
  end.

(** The value stored under the string key [k]. *)
Fixpoint dict_lookup (k : string) (kv : list (yaml * yaml)) : option yaml :=
  match kv with
  | [] => None
  | (y, v) :: kv' => if key_is k y then Some v else dict_lookup k kv'
  end.

(** [sub in s] on strings. *)
Fixpoint is_substring (sub s : string) : bool :=
  String.prefix sub s ||
  match s with
  | EmptyString => false
  | String _ s' => is_substring sub s'
  end.

(** [k in data], for a string [k]. *)
Definition py_in (k : string) (data : yaml) : Res bool :=
  match data with
  | YDict kv => Ok (bool_decide (is_Some (dict_lookup k kv)))
  | YList items => Ok (List.existsb (key_is k) items)
  | YStr s => Ok (is_substring k s)
  | _ => Raise TypeError
  end.

(** [data[k]], for a string [k]. *)
Definition py_getitem (data : yaml) (k : string) : Res yaml :=
  match data with
  | YDict kv =>
      match dict_lookup k kv with
      | Some v => Ok v
      | None => Raise KeyError
      end
  | _ => Raise TypeError
  end.

(** [d.get(k)]. *)
Definition dict_get (k : string) (kv : list (yaml * yaml)) : yaml :=
  default YNull (dict_lookup k kv).

(** [bool(v)]. *)
Definition py_truthy (v : yaml) : bool :=
  match v with
  | YNull => false
  | YBool b => b
  | YInt z => negb (z =? 0)%Z
  | YStr s => negb (String.eqb s "")
  | YOther t _ => t
  | YList items => negb (bool_decide (items = []))
  | YDict kv => negb (bool_decide (kv = []))
  end.

Fixpoint chars_of (s : string) : list yaml :=
  match s with
  | EmptyString => []
  | String a s' => YStr (String a EmptyString) :: chars_of s'
  end.

(** What [for x in v] goes through. *)
Definition py_iter (v : yaml) : Res (list yaml) :=
  match v with
  | YList items => Ok items
  | YStr s => Ok (chars_of s)
  | YDict kv => Ok (List.map fst kv)
  | _ => Raise TypeError
  end.

(** The line feed, [chr(10)]. *)
Definition nl : string := String (ascii_of_nat 10) EmptyString.

(** What an external process does: it cannot be started, or it runs, leaves
    the file system in some state and exits with a return code. *)
Inductive proc_result :=
| ProcError
| ProcExit (returncode : Z) (fs' : gmap Path Dir).

(** ** The script *)

Section Script.

(** The external tools: what running command [cmd] with working directory
    [cwd] does in a given world. *)
Variable tool : list string -> Path -> World -> proc_result.

(** [yaml.safe_load] on the text of a file; [None] when it raises. *)
Variable safe_load : string -> option yaml.

(** [str] of a float, date or container, which is their [repr]. *)
Variable py_repr : yaml -> string.

(** [str(v)]. *)
Definition py_str (v : yaml) : string :=
  match v with
  | YNull => "None"
  | YBool true => "True"
  | YBool false => "False"
  | YInt z => pretty z
  | YStr s => s
  | YOther _ text => text
  | YList _ | YDict _ => py_repr v
  end.

(** [subprocess.run(cmd, capture_output=True, text=True, cwd=cwd)], and the
    [returncode] of its result. *)
Definition subprocess_run (cmd : list string) (cwd : Path) : M Z := fun w =>
  let w1 := log (Spawn cmd cwd) w in
  match tool cmd cwd w1 with
  | ProcError => (Raise SubprocessError, w1)
  | ProcExit rc fs' => (Ok rc, set_fs fs' w1)
  end.

(** [convert_paddle_to_onnx(model_dir)]. *)
Definition convert_paddle_to_onnx (model_dir : Path) : M bool :=
  emit (EnterStage PaddleToOnnx) >>
  let* inference_json := path_exists model_dir "inference.json" in
  let* missing :=
    if negb inference_json then ret true
    else let* inference_pdiparams := path_exists model_dir "inference.pdiparams" in
         ret (negb inference_pdiparams) in
  if missing : bool then ret false else
  let* output_onnx := path_exists model_dir "model.onnx" in
  if output_onnx : bool then ret true else
  let cmd := ["paddle2onnx";
              "--model_dir"; ".";
              "--model_filename"; "inference.json";
              "--params_filename"; "inference.pdiparams";
              "--save_file"; "model.onnx"] in
  try_except
    (let* returncode := subprocess_run cmd model_dir in
     if negb (returncode =? 0)%Z then ret false else ret true)
    (fun _ => ret false).

(** [convert_onnx_to_mnn(model_dir, use_fp16, onnx_filename, mnn_filename)]. *)
Definition convert_onnx_to_mnn (model_dir : Path) (use_fp16 : bool)
    (onnx_filename mnn_filename : string) : M bool :=
  emit (EnterStage OnnxToMnn) >>
  let* input_onnx := path_exists model_dir onnx_filename in
  if negb input_onnx then ret false else
  let* output_mnn := path_exists model_dir mnn_filename in
  if output_mnn : bool then ret true else
  let cmd := ["mnnconvert";
              "-f"; "ONNX";
              "--modelFile"; onnx_filename;
              "--MNNModel"; mnn_filename;
              "--bizCode"; "mnn"] in
  let cmd := if use_fp16 then (cmd ++ ["--fp16"])%list else cmd in
  try_except
    (let* returncode := subprocess_run cmd model_dir in
     if negb (returncode =? 0)%Z then ret false else ret true)
    (fun _ => ret false).

(** The loop over [data['PostProcess']] when it is a list: the value of the
    first item that is a dict with the key [character_dict]. *)
Fixpoint first_character_dict (items : list yaml) : yaml :=
  match items with
  | [] => YNull
  | YDict kv :: rest =>
      match dict_lookup "character_dict" kv with
      | Some v => v
      | None => first_character_dict rest
      end
  | _ :: rest => first_character_dict rest
  end.

(** Lines 130 to 138: where the dictionary is looked for in the loaded
    data.  [YNull] is the initial [character_dict = None]. *)
Definition locate_character_dict (data : yaml) : Res yaml :=
  match py_in "PostProcess" data with
  | Raise e => Raise e
  | Ok false => Ok YNull
  | Ok true =>
      match py_getitem data "PostProcess" with
      | Raise e => Raise e
      | Ok (YDict kv) => Ok (dict_get "character_dict" kv)
      | Ok (YList items) => Ok (first_character_dict items)
      | Ok _ => Ok YNull
      end
  end.

(** [extract_character_dict(model_dir)]. *)
Definition extract_character_dict (model_dir : Path) : M bool :=
  emit (EnterStage ExtractDict) >>
  let* inference_yml := path_exists model_dir "inference.yml" in
  if negb inference_yml then ret false else
  let* output_txt := path_exists model_dir "ppocr_keys.txt" in
  if output_txt : bool then ret true else
  try_except
    (let* text := read_file model_dir "inference.yml" in
     let* data := lift (match safe_load text with
                        | Some data => Ok data
                        | None => Raise YAMLError
                        end) in
     let* character_dict := lift (locate_character_dict data) in
     if negb (py_truthy character_dict) then ret false else
     open_write model_dir "ppocr_keys.txt" >>
     let* chars := lift (py_iter character_dict) in
     for_each chars (fun char =>
       let char_str := match char with YNull => "" | _ => py_str char end in
       f_write model_dir "ppocr_keys.txt" (char_str +:+ nl)) >>
     ret true)
    (fun _ => ret false).

(** [detect_input_format(model_dir)]. *)
Definition detect_input_format (model_dir : Path) : M (option InputFormat) :=
  let* inference_json := path_exists model_dir "inference.json" in
  let* has_paddle :=
    if inference_json : bool then path_exists model_dir "inference.pdiparams"
    else ret false in
  let* has_onnx := (fun w => (Ok (negb (bool_decide (glob_onnx w model_dir = []))), w)) in
  if has_paddle : bool then ret (Some PADDLE)
  else if has_onnx : bool then ret (Some ONNX)
  else ret None.

(** The result dict of [convert_model], as it is first built. *)
Definition initial_results : gmap string bool :=
  <["success" := false]> (<["extract_dict" := false]>
    (<["onnx_to_mnn" := false]> (<["paddle_to_onnx" := false]> ∅))).

(** [results[k]]; every key read by the script has been stored before. *)
Definition getitem (results : gmap string bool) (k : string) : bool :=
  default false (results !! k).

(** [convert_model(model_dir, use_fp16, input_format)]. *)
Definition convert_model (model_dir : Path) (use_fp16 : bool)
    (input_format : InputFormat) : M (gmap string bool) :=
  let* resolved :=
    match input_format with
    | AUTO => detect_input_format model_dir
    | _ => ret (Some input_format)
    end in
  match resolved with
  | None => ret {[ "success" := false ]}
  | Some input_format =>
      let results := initial_results in
      let* results :=
        match input_format with
        | PADDLE =>
            let* p2o := convert_paddle_to_onnx model_dir in
            let results := <["paddle_to_onnx" := p2o]> results in
            let* results :=
              if getitem results "paddle_to_onnx"
              then let* o2m := convert_onnx_to_mnn model_dir use_fp16 "model.onnx" "model.mnn" in
                   ret (<["onnx_to_mnn" := o2m]> results)
              else ret results in
            let* dict := extract_character_dict model_dir in
            ret (<["extract_dict" := dict]> results)
        | ONNX =>
            let* onnx_files := (fun w => (Ok (glob_onnx w model_dir), w)) in
            match onnx_files with
            | onnx_file :: _ =>
                let mnn_file := stem onnx_file +:+ ".mnn" in
                let* o2m := convert_onnx_to_mnn model_dir use_fp16 onnx_file mnn_file in
                ret (<["onnx_to_mnn" := o2m]> results)
            | [] => ret results
            end
        | AUTO => ret results
        end in
      ret (<["success" := List.existsb id [getitem results "paddle_to_onnx";
                                          getitem results "onnx_to_mnn";
                                          getitem results "extract_dict"]]> results)
  end.

(** ** The batch loop of [main] *)

Record BatchState := mkBatch {
  success_count : nat;
  failed_models : list string
}.

Definition count_success (st : BatchState) : BatchState :=
  mkBatch (S (success_count st)) (failed_models st).

Definition record_failure (name : string) (st : BatchState) : BatchState :=
  mkBatch (success_count st) (failed_models st ++ [name])%list.

(** One round of the [for] loop: lines 321 to 331. *)
Definition loop_body (use_fp16 : bool) (input_format : InputFormat)
    (st : BatchState) (model_dir : Path) : M BatchState :=
  try_except
    (let* results := convert_model model_dir use_fp16 input_format in
     if default false (results !! "success")
     then ret (count_success st)
     else ret (record_failure (path_name model_dir) st))
    (fun _ => ret (record_failure (path_name model_dir) st)).

Fixpoint main_loop (use_fp16 : bool) (input_format : InputFormat)
    (dirs : list Path) (st : BatchState) : M BatchState :=
  match dirs with
  | [] => ret st
  | model_dir :: rest =>
      let* st' := loop_body use_fp16 input_format st model_dir in
      main_loop use_fp16 input_format rest st'
  end.

(** Paths compare as the tuples of their parts. *)
Fixpoint path_ltb (p q : Path) : bool :=
  match p, q with
  | [], [] => false
  | [], _ :: _ => true
  | _ :: _, [] => false
  | a :: p', b :: q' =>
      match String.compare a b with
      | Lt => true
      | Gt => false
      | Eq => path_ltb p' q'
      end
  end.

Fixpoint insert_sorted (p : Path) (l : list Path) : list Path :=
  match l with
  | [] => [p]
  | q :: l' => if path_ltb q p then q :: insert_sorted p l' else p :: l
  end.

(** [sorted(model_dirs)]. *)
Definition sorted (l : list Path) : list Path :=
  List.fold_right insert_sorted [] l.

(** Lines 316 to 331 of [main]: the counters, and the loop over the sorted
    directories. *)
Definition main_batch (use_fp16 : bool) (input_format : InputFormat)
    (model_dirs : list Path) : M BatchState :=
  main_loop use_fp16 input_format (sorted model_dirs) (mkBatch 0 []).

End Script.


(** ** The dependency check and the run of [main] *)

Section Startup.

Variable tool : list string -> Path -> World -> proc_result.
Variable safe_load : string -> option yaml.
Variable py_repr : yaml -> string.

(** Whether a command that cannot be started is missing from the search
    path, in which case starting it raises [FileNotFoundError]; a command
    that is there and cannot be started raises [PermissionError]. *)
Variable missing : list string -> bool.

(** [subprocess.run(cmd, capture_output=True, text=True, check=True)] in the
    working directory [cwd] of the script.  With [check=True] an exit
    status other than 0 raises [CalledProcessError], a subclass of
    [SubprocessError]. *)
Definition subprocess_run_checked (cmd : list string) (cwd : Path) : M unit := fun w =>
  let w1 := log (Spawn cmd cwd) w in
  match tool cmd cwd w1 with
  | ProcError => (Raise (if missing cmd then FileNotFoundError else PermissionError), w1)
  | ProcExit rc fs' =>
      if (rc =? 0)%Z then (Ok tt, set_fs fs' w1)
      else (Raise SubprocessError, set_fs fs' w1)
  end.

(** [except (FileNotFoundError, subprocess.CalledProcessError)]: the two
    exceptions are handled, any other one goes on. *)
Definition except_not_available {A} (handler : M A) (e : exn) : M A :=
  match e with
  | FileNotFoundError | SubprocessError => handler
  | _ => raise e
  end.

(** [check_dependencies()], run in the working directory [cwd]. *)
Definition check_dependencies (cwd : Path) : M bool :=
  let* paddle2onnx :=
    try_except (subprocess_run_checked ["paddle2onnx"; "--version"] cwd >> ret true)
               (except_not_available (ret false)) in
  if negb paddle2onnx then ret false else
  let* mnnconvert :=
    try_except (subprocess_run_checked ["mnnconvert"; "--version"] cwd >> ret true)
               (except_not_available (ret false)) in
  if negb mnnconvert then ret false else
  ret true.

(** How [main] ends: by [sys.exit(code)], or by reaching its last line with
    the counters of the batch. *)
Inductive main_end :=
| SysExit (code : Z)
| Finished (summary : BatchState).

(** Lines 307 to 341 of [main]: the dependency check, the exit on an empty
    list of model directories, and the batch. *)
Definition main_run (cwd : Path) (use_fp16 : bool) (input_format : InputFormat)
    (model_dirs : list Path) : M main_end :=
  let* available := check_dependencies cwd in
  if negb available then ret (SysExit 1) else
  match model_dirs with
  | [] => ret (SysExit 0)
  | _ =>
      let* summary := main_batch tool safe_load py_repr use_fp16 input_format model_dirs in
      ret (Finished summary)
  end.

End Startup.
(** ** Predicates of the statements *)

(** The Paddle signal: both required files are in the directory. *)
Definition has_paddle_files (w : World) (d : Path) : bool :=
  has_file w d "inference.json" && has_file w d "inference.pdiparams".

(** The ONNX signal: some file of the directory is named [*.onnx]. *)
Definition has_onnx_file (w : World) (d : Path) : Prop :=
  exists n, has_file w d n = true /\ endswith n ".onnx" = true.


(** The line written for one entry of the dictionary. *)
Definition entry_line (py_repr : yaml -> string) (char : yaml) : string :=
  (match char with YNull => "" | _ => py_str py_repr char end) +:+ nl.

(** The text written for a list of entries: one line each. *)
Definition dictionary_text (py_repr : yaml -> string) (chars : list yaml) : string :=
  List.fold_right (fun char rest => entry_line py_repr char +:+ rest) "" chars.

(** An item of the [PostProcess] list that the search passes over. *)
Definition lacks_field (item : yaml) : bool :=
  match item with
  | YDict kv => negb (bool_decide (is_Some (dict_lookup "character_dict" kv)))
  | _ => true
  end.

(** The loaded configuration [data] holds the field [character_dict] with
    value [v], in one of the two shapes: [PostProcess] is a mapping with the
    field, or a list whose first item with the field is a mapping
    giving [v]. *)
Inductive has_character_dict (data : yaml) (v : yaml) : Prop :=
| in_mapping kv pp :
    data = YDict kv ->
    dict_lookup "PostProcess" kv = Some (YDict pp) ->
    dict_lookup "character_dict" pp = Some v ->
    has_character_dict data v
| in_list kv before item after :
    data = YDict kv ->
    dict_lookup "PostProcess" kv = Some (YList (before ++ YDict item :: after)) ->
    forallb lacks_field before = true ->
    dict_lookup "character_dict" item = Some v ->
    has_character_dict data v.

(** The result dict with the three stage outcomes and the flag derived
    from them. *)
Definition conversion_result (p2o o2m dict : bool) : gmap string bool :=
  <["success" := p2o || o2m || dict]>
    (<["extract_dict" := dict]>
       (<["onnx_to_mnn" := o2m]> (<["paddle_to_onnx" := p2o]> ∅))).

(** The keys under which the stage outcomes are stored. *)
Definition stage_names : list string :=
  ["paddle_to_onnx"; "onnx_to_mnn"; "extract_dict"].

(** The format the pipeline works with: the requested one, or the detected
    one when the request is [AUTO]. *)
Definition resolves_to (input_format : InputFormat) (d : Path) (w : World)
    (f : InputFormat) : Prop :=
  (input_format = f /\ f <> AUTO) \/
  (input_format = AUTO /\ detect_input_format d w = (Ok (Some f), w)).


(** The key of the result dict under which the outcome of a stage is
    stored. *)
Definition stage_key (s : stage) : string :=
  match s with
  | PaddleToOnnx => "paddle_to_onnx"
  | OnnxToMnn => "onnx_to_mnn"
  | ExtractDict => "extract_dict"
  end.

(** The result is fully populated: it holds the flag and an outcome for
    every stage name. *)
Definition fully_populated (r : gmap string bool) : Prop :=
  is_Some (r !! "success") /\ forall k, In k stage_names -> is_Some (r !! k).

(** The statement that dictionary extraction writes the three entries
    whatever else the directory holds. *)
Definition dictionary_always_written (safe_load : string -> option yaml)
    (py_repr : yaml -> string) : Prop :=
  forall (w : World) (d : Path) (text : string) (data a b c : yaml),
    file_content w d "inference.yml" = Some text ->
    safe_load text = Some data ->
    has_character_dict data (YList [a; b; c]) ->
    exists w',
      extract_character_dict safe_load py_repr d w = (Ok true, w') /\
      file_content w' d "ppocr_keys.txt"
        = Some (entry_line py_repr a +:+ entry_line py_repr b +:+ entry_line py_repr c).

(** The statement that every returned result is fully populated. *)
Definition always_fully_populated (tool : list string -> Path -> World -> proc_result)
    (safe_load : string -> option yaml) (py_repr : yaml -> string) : Prop :=
  forall (w : World) (d : Path) (use_fp16 : bool) (input_format : InputFormat)
         (r : gmap string bool) (w' : World),
    convert_model tool safe_load py_repr d use_fp16 input_format w = (Ok r, w') ->
    fully_populated r.

(** The command line of the Paddle-to-ONNX exporter. *)
Definition paddle2onnx_cmd : list string :=
  ["paddle2onnx"; "--model_dir"; "."; "--model_filename"; "inference.json";
   "--params_filename"; "inference.pdiparams"; "--save_file"; "model.onnx"].

(** The command line of the ONNX-to-MNN converter. *)
Definition mnnconvert_cmd (use_fp16 : bool) (onnx_filename mnn_filename : string)
  : list string :=
  (["mnnconvert"; "-f"; "ONNX"; "--modelFile"; onnx_filename;
    "--MNNModel"; mnn_filename; "--bizCode"; "mnn"]
   ++ (if use_fp16 then ["--fp16"] else []))%list.

(** The tool exits with status 0 when run in world [w]. *)
Definition exits_zero (tool : list string -> Path -> World -> proc_result)
    (cmd : list string) (cwd : Path) (w : World) : Prop :=
  exists fs', tool cmd cwd w = ProcExit 0 fs'.

(** The file system a run of the tool leaves: the one it reports, or the
    one it found when it could not be started. *)
Definition fs_after (tool : list string -> Path -> World -> proc_result)
    (cmd : list string) (cwd : Path) (w : World) : gmap Path Dir :=
  match tool cmd cwd w with
  | ProcError => fs w
  | ProcExit _ fs' => fs'
  end.

(** The loaded configuration gives no dictionary: it is not a mapping, or
    it has no [PostProcess], or [PostProcess] is a mapping without
    [character_dict], a list none of whose items has it, or a scalar. *)
Definition no_dictionary (data : yaml) : Prop :=
  match data with
  | YDict kv =>
      match dict_lookup "PostProcess" kv with
      | None => True
      | Some (YDict pp) => dict_lookup "character_dict" pp = None
      | Some (YList items) => forallb lacks_field items = true
      | Some _ => True
      end
  | _ => True
  end.

(** [p <= q] on paths: [q] is not below [p]. *)
Definition path_le (p q : Path) : Prop := path_ltb q p = false.

(** ** Sample inputs *)

(** Tools that exit with status 1 and leave the file system as it is. *)
Definition failing_tool : list string -> Path -> World -> proc_result :=
  fun _ _ w => ProcExit 1 (fs w).

(** Three configuration texts and what they load as. *)
Definition mapping_text : string := "PostProcess: {character_dict: [a, b, c]}".
Definition list_text : string := "PostProcess: [{character_dict: [a, b, c]}]".
Definition empty_text : string := "PostProcess: {character_dict: []}".

Definition abc : yaml := YList [YStr "a"; YStr "b"; YStr "c"].

Definition mapping_config : yaml :=
  YDict [(YStr "PostProcess", YDict [(YStr "character_dict", abc)])].

Definition list_config : yaml :=
  YDict [(YStr "PostProcess", YList [YDict [(YStr "character_dict", abc)]])].

Definition empty_config : yaml :=
  YDict [(YStr "PostProcess", YDict [(YStr "character_dict", YList [])])].

Definition sample_load (text : string) : option yaml :=
  if String.eqb text mapping_text then Some mapping_config
  else if String.eqb text list_text then Some list_config
  else if String.eqb text empty_text then Some empty_config
  else None.

Definition sample_repr (v : yaml) : string := "".

(** Model directories: a Paddle model not yet converted, one already
    converted, one with an empty dictionary, an ONNX model, an empty
    directory and one the process may not enter. *)
Definition rec_dir : Path := ["ocr"; "rec"].
Definition done_dir : Path := ["ocr"; "done"].
Definition blank_dir : Path := ["ocr"; "blank"].
Definition det_dir : Path := ["ocr"; "det"].
Definition empty_dir : Path := ["ocr"; "empty"].
Definition locked_dir : Path := ["ocr"; "locked"].

Definition sample_fs : gmap Path Dir :=
  <[rec_dir := Listing [("inference.json", "{}"); ("inference.pdiparams", "");
                        ("inference.yml", mapping_text)]]>
  (<[done_dir := Listing [("inference.json", "{}"); ("inference.pdiparams", "");
                          ("inference.yml", list_text); ("model.onnx", "");
                          ("model.mnn", ""); ("ppocr_keys.txt", "old")]]>
  (<[blank_dir := Listing [("inference.yml", empty_text)]]>
  (<[det_dir := Listing [("README.md", ""); ("foo.onnx", ""); ("bar.onnx", "")]]>
  (<[empty_dir := Listing []]>
  (<[locked_dir := Denied]> ∅))))).

Definition sample_world : World := mkWorld sample_fs [].

(** Tools that exit with status 0 and leave the file system as it is. *)
Definition idle_tool : list string -> Path -> World -> proc_result :=
  fun _ _ w => ProcExit 0 (fs w).

(** The file system with file [name] added to directory [d]. *)
Definition with_file (d : Path) (name : string) (f : gmap Path Dir) : gmap Path Dir :=
  match f !! d with
  | Some (Listing es) => <[d := Listing (entry_store name "" es)]> f
  | _ => f
  end.

(** Tools that work: the exporter leaves [model.onnx], the converter the
    file named after [--MNNModel], both exit with status 0. *)
Definition working_tool : list string -> Path -> World -> proc_result :=
  fun cmd cwd w =>
    match cmd with
    | "paddle2onnx" :: "--model_dir" :: _ => ProcExit 0 (with_file cwd "model.onnx" (fs w))
    | "mnnconvert" :: "-f" :: _ => ProcExit 0 (with_file cwd (nth 6 cmd "") (fs w))
    | _ => ProcExit 0 (fs w)
    end.

(** Every command that cannot be started is taken as missing. *)
Definition all_missing : list string -> bool := fun _ => true.

(** Two more configuration texts: a dictionary given as one string, and a
    number where the dictionary should be; any other text does not load. *)
Definition string_text : string := "PostProcess: {character_dict: abc}".
Definition number_text : string := "PostProcess: {character_dict: 5}".
Definition broken_text : string := "PostProcess: [".

Definition string_config : yaml :=
  YDict [(YStr "PostProcess", YDict [(YStr "character_dict", YStr "abc")])].

Definition number_config : yaml :=
  YDict [(YStr "PostProcess", YDict [(YStr "character_dict", YInt 5)])].

Definition more_load (text : string) : option yaml :=
  if String.eqb text string_text then Some string_config
  else if String.eqb text number_text then Some number_config
  else sample_load text.

Definition string_dir : Path := ["ocr"; "string"].
Definition number_dir : Path := ["ocr"; "number"].
Definition broken_dir : Path := ["ocr"; "broken"].

Definition more_world : World :=
  mkWorld
    (<[string_dir := Listing [("inference.yml", string_text)]]>
    (<[number_dir := Listing [("inference.yml", number_text)]]>
    (<[broken_dir := Listing [("inference.yml", broken_text)]]> sample_fs)))
    [].

(** The working directory of the script. *)
Definition script_dir : Path := ["work"].

(** ** The order of the model directories *)

Lemma compare_refl (a : string) : String.compare a a = Eq.
Proof.
  induction a as [|x a IH]; [reflexivity|]. simpl.
  unfold Ascii.compare. now rewrite N.compare_refl.
Qed.

Lemma compare_lt_gt (a b : string) :
  String.compare a b = Lt -> String.compare b a = Gt.
Proof. intros H. rewrite String.compare_antisym, H. reflexivity. Qed.

Lemma compare_gt_lt (a b : string) :
  String.compare a b = Gt -> String.compare b a = Lt.
Proof. intros H. rewrite String.compare_antisym, H. reflexivity. Qed.

Lemma compare_lt_trans (a b c : string) :
  String.compare a b = Lt -> String.compare b c = Lt -> String.compare a c = Lt.
Proof.
  intros Hab Hbc.
  assert (Lab : String.le a b) by (unfold String.le, String.leb; now rewrite Hab).
  assert (Lbc : String.le b c) by (unfold String.le, String.leb; now rewrite Hbc).
  pose proof (transitivity Lab Lbc) as Lac.
  unfold String.le, String.leb in Lac.
  destruct (String.compare a c) eqn:E; [|reflexivity|destruct Lac].
  apply String.compare_eq_iff in E as ->.
  apply compare_lt_gt in Hab. congruence.
Qed.

Lemma path_ltb_irrefl (p : Path) : path_ltb p p = false.
Proof.
  induction p as [|a p IH]; [reflexivity|]. simpl. now rewrite compare_refl.
Qed.

Lemma path_ltb_asym (p : Path) : forall q,
  path_ltb p q = true -> path_ltb q p = false.
Proof.
  induction p as [|a p IH]; intros [|b q]; simpl; try congruence.
  destruct (String.compare a b) eqn:E; try discriminate.
  - apply String.compare_eq_iff in E as ->. rewrite compare_refl. apply IH.
  - now rewrite (compare_lt_gt _ _ E).
Qed.

Lemma path_ltb_trans (p : Path) : forall q r,
  path_ltb p q = true -> path_ltb q r = true -> path_ltb p r = true.
Proof.
  induction p as [|a p IH]; intros [|b q] [|c r]; simpl; try congruence.
  destruct (String.compare a b) eqn:Eab; try discriminate.
  - apply String.compare_eq_iff in Eab as ->.
    destruct (String.compare b c); try discriminate; auto. apply IH.
  - destruct (String.compare b c) eqn:Ebc; try discriminate.
    + apply String.compare_eq_iff in Ebc as <-. now rewrite Eab.
    + now rewrite (compare_lt_trans _ _ _ Eab Ebc).
Qed.

(** Two paths are equal, or one is below the other. *)
Lemma path_ltb_total (p : Path) : forall q,
  path_ltb p q = false -> p = q \/ path_ltb q p = true.
Proof.
  induction p as [|a p IH]; intros [|b q]; simpl; try congruence; auto.
  destruct (String.compare a b) eqn:E; try discriminate.
  - apply String.compare_eq_iff in E as ->. rewrite compare_refl.
    intros H. destruct (IH _ H) as [->|?]; auto.
  - rewrite (compare_gt_lt _ _ E). auto.
Qed.

Lemma path_le_refl (p : Path) : path_le p p.
Proof. apply path_ltb_irrefl. Qed.

Lemma path_le_trans (p q r : Path) : path_le p q -> path_le q r -> path_le p r.
Proof.
  unfold path_le. intros Hpq Hqr.
  destruct (path_ltb r p) eqn:E; [|reflexivity].
  destruct (path_ltb_total _ _ Hpq) as [->|Hlt]; [congruence|].
  rewrite (path_ltb_trans _ _ _ E Hlt) in Hqr. discriminate.
Qed.

Lemma path_lt_le (p q : Path) : path_ltb p q = true -> path_le p q.
Proof. apply path_ltb_asym. Qed.

Lemma insert_sorted_perm (p : Path) (l : list Path) :
  Permutation (insert_sorted p l) (p :: l).
Proof.
  induction l as [|q l IH]; simpl; [reflexivity|].
  destruct (path_ltb q p); [|reflexivity].
  rewrite IH. apply perm_swap.
Qed.

Lemma sorted_perm (l : list Path) : Permutation (sorted l) l.
Proof.
  induction l as [|p l IH]; simpl; [reflexivity|].
  unfold sorted in *. simpl. rewrite insert_sorted_perm. now constructor.
Qed.

Lemma insert_sorted_ordered (p : Path) (l : list Path) :
  StronglySorted path_le l -> StronglySorted path_le (insert_sorted p l).
Proof.
  induction 1 as [|q l Hs IH Hq]; simpl.
  - constructor; constructor.
  - destruct (path_ltb q p) eqn:E.
    + constructor; [exact IH|].
      rewrite (insert_sorted_perm p l). constructor; [now apply path_lt_le | exact Hq].
    + constructor; [now constructor|].
      constructor; [exact E|].
      eapply List.Forall_impl; [|exact Hq]. intros r Hr.
      eapply path_le_trans; [exact E | exact Hr].
Qed.

Lemma sorted_ordered (l : list Path) : StronglySorted path_le (sorted l).
Proof.
  induction l as [|p l IH]; [constructor|].
  unfold sorted in *. simpl. now apply insert_sorted_ordered.
Qed.

(** ** Suffixes of names *)

Lemma string_append_cons (a : ascii) (s t : string) :
  String a s +:+ t = String a (s +:+ t).
Proof. reflexivity. Qed.

Lemma string_length_append (s t : string) :
  String.length (s +:+ t) = (String.length s + String.length t)%nat.
Proof.
  induction s as [|a s IH]; [reflexivity|].
  rewrite string_append_cons. simpl. now rewrite IH.
Qed.

Lemma substring_whole (s : string) : substring 0 (String.length s) s = s.
Proof. induction s as [|a s IH]; [reflexivity|]. simpl. now rewrite IH. Qed.

Lemma substring_suffix (s t : string) :
  substring (String.length s) (String.length t) (s +:+ t) = t.
Proof.
  induction s as [|a s IH].
  - change ("" +:+ t) with t. apply substring_whole.
  - rewrite string_append_cons. simpl. exact IH.
Qed.

Lemma endswith_append (s t : string) : endswith (s +:+ t) t = true.
Proof.
  unfold endswith. rewrite string_length_append.
  replace (String.length s + String.length t - String.length t)%nat
    with (String.length s) by lia.
  rewrite substring_suffix, String.eqb_refl.
  apply andb_true_iff. split; [apply Nat.leb_le; lia | reflexivity].
Qed.

(** A name ending in [.mnn] does not end in [.onnx]. *)
Lemma mnn_name_not_onnx (a b : string) : a +:+ ".mnn" <> b +:+ ".onnx".
Proof.
  intros H.
  assert (Hl : String.length (a +:+ ".mnn") = String.length (b +:+ ".onnx"))
    by now rewrite H.
  rewrite !string_length_append in Hl. simpl in Hl.
  pose proof (String.append_correct2 a ".mnn" 3) as Ha.
  pose proof (String.append_correct2 b ".onnx" 4) as Hb.
  replace (4 + String.length b)%nat with (3 + String.length a)%nat in Hb by lia.
  change (a ++ ".mnn")%string with (a +:+ ".mnn") in Ha.
  change (b ++ ".onnx")%string with (b +:+ ".onnx") in Hb.
  rewrite H in Ha. rewrite <- Ha in Hb. simpl in Hb. discriminate.
Qed.

(** ** Properties *)

(** *** The file system *)

Lemma has_file_listing w d n :
  has_file w d n = true -> exists es, fs w !! d = Some (Listing es) /\ is_Some (entry_lookup n es).
Proof.
  unfold has_file, file_content. intros H. apply bool_decide_eq_true in H.
  destruct (fs w !! d) as [[|es]|]; try (destruct H; discriminate).
  eauto.
Qed.

Lemma path_exists_true w d n :
  has_file w d n = true -> path_exists d n w = (Ok true, w).
Proof.
  intros H. destruct (has_file_listing _ _ _ H) as (es & Hd & _).
  unfold path_exists. rewrite Hd, H. reflexivity.
Qed.

Lemma path_exists_readable w d n :
  fs w !! d <> Some Denied -> path_exists d n w = (Ok (has_file w d n), w).
Proof.
  unfold path_exists. destruct (fs w !! d) as [[|es]|]; congruence.
Qed.

Lemma path_exists_denied w d n :
  fs w !! d = Some Denied -> path_exists d n w = (Raise PermissionError, w).
Proof. unfold path_exists. intros ->. reflexivity. Qed.

Lemma entry_lookup_is_Some n es :
  is_Some (entry_lookup n es) <-> In n (List.map fst es).
Proof.
  induction es as [|[m c] es IH]; simpl.
  - split; [intros [? ?]; discriminate | tauto].
  - destruct (String.eqb_spec m n) as [->|Hne].
    + split; [intros _; now left | intros _; exists c; reflexivity].
    + rewrite IH. split; [tauto | intros [?|?]; [congruence | done]].
Qed.

Lemma has_file_entries w d n :
  has_file w d n = true <-> In n (List.map fst (entries_of w d)).
Proof.
  unfold has_file, file_content, entries_of. rewrite bool_decide_eq_true.
  destruct (fs w !! d) as [[|es]|]; simpl.
  - split; [intros [? ?]; discriminate | tauto].
  - apply entry_lookup_is_Some.
  - split; [intros [? ?]; discriminate | tauto].
Qed.

Lemma glob_onnx_In w d n :
  In n (glob_onnx w d) <-> has_file w d n = true /\ endswith n ".onnx" = true.
Proof. unfold glob_onnx. rewrite filter_In, has_file_entries. tauto. Qed.

Lemma glob_onnx_nonempty w d :
  glob_onnx w d <> [] <-> has_onnx_file w d.
Proof.
  unfold has_onnx_file. split.
  - destruct (glob_onnx w d) as [|n l] eqn:E; [congruence|]. intros _.
    exists n. apply glob_onnx_In. rewrite E. now left.
  - intros (n & Hn) E. apply glob_onnx_In in Hn. rewrite E in Hn. destruct Hn.
Qed.

Lemma has_file_not_denied w d n :
  has_file w d n = true -> fs w !! d <> Some Denied.
Proof.
  unfold has_file, file_content. intros H E. rewrite E in H.
  apply bool_decide_eq_true in H. destruct H; discriminate.
Qed.

Lemma has_file_lookup w d n es :
  fs w !! d = Some (Listing es) ->
  has_file w d n = bool_decide (is_Some (entry_lookup n es)).
Proof. unfold has_file, file_content. now intros ->. Qed.

Lemma file_content_listing w d n c :
  file_content w d n = Some c ->
  exists es, fs w !! d = Some (Listing es) /\ entry_lookup n es = Some c.
Proof.
  unfold file_content. destruct (fs w !! d) as [[|es]|]; try discriminate. eauto.
Qed.

Lemma has_file_false_lookup w d n es :
  fs w !! d = Some (Listing es) -> has_file w d n = false -> entry_lookup n es = None.
Proof.
  intros Hd. rewrite (has_file_lookup _ _ _ _ Hd). intros H.
  apply bool_decide_eq_false in H. destruct (entry_lookup n es); [|reflexivity].
  exfalso. apply H. eauto.
Qed.

Lemma entry_lookup_store n c es :
  entry_lookup n (entry_store n c es) = Some c.
Proof.
  induction es as [|[m c'] es IH]; simpl.
  - now rewrite String.eqb_refl.
  - destruct (String.eqb m n) eqn:E; simpl; rewrite E; auto.
Qed.

Lemma entry_lookup_store_ne n m c es :
  m <> n -> entry_lookup m (entry_store n c es) = entry_lookup m es.
Proof.
  intros Hne. induction es as [|[k c'] es IH]; simpl.
  - destruct (String.eqb_spec n m); congruence.
  - destruct (String.eqb_spec k n) as [->|E]; simpl; [|now rewrite IH].
    destruct (String.eqb_spec n m); congruence.
Qed.

Lemma entry_store_store n c1 c2 es :
  entry_store n c2 (entry_store n c1 es) = entry_store n c2 es.
Proof.
  induction es as [|[m c'] es IH]; simpl.
  - now rewrite String.eqb_refl.
  - destruct (String.eqb m n) eqn:E; simpl; rewrite E; [reflexivity | now rewrite IH].
Qed.

Lemma entry_store_same n c es :
  entry_lookup n es = Some c -> entry_store n c es = es.
Proof.
  induction es as [|[m c'] es IH]; simpl; [discriminate|].
  destruct (String.eqb m n); [congruence | intros H; now rewrite IH].
Qed.

(** *** Format detection *)

Lemma detect_readable w d :
  fs w !! d <> Some Denied ->
  detect_input_format d w
  = (Ok (if has_paddle_files w d then Some PADDLE
         else if bool_decide (glob_onnx w d = []) then None else Some ONNX), w).
Proof.
  intros Hd. unfold detect_input_format, has_paddle_files, bind.
  rewrite (path_exists_readable w d _ Hd).
  destruct (has_file w d "inference.json"); simpl.
  - rewrite (path_exists_readable w d _ Hd).
    destruct (has_file w d "inference.pdiparams"); simpl; [reflexivity|].
    destruct (bool_decide _); reflexivity.
  - destruct (bool_decide _); reflexivity.
Qed.

Lemma detect_denied w d :
  fs w !! d = Some Denied -> detect_input_format d w = (Raise PermissionError, w).
Proof.
  intros Hd. unfold detect_input_format, bind. now rewrite path_exists_denied.
Qed.

Lemma detect_world d w r w' : detect_input_format d w = (r, w') -> w' = w.
Proof.
  destruct (fs w !! d) as [[|es]|] eqn:E.
  - rewrite detect_denied by exact E. congruence.
  - rewrite detect_readable by congruence. congruence.
  - rewrite detect_readable by congruence. congruence.
Qed.

Lemma detect_not_auto d w w' : detect_input_format d w <> (Ok (Some AUTO), w').
Proof.
  destruct (fs w !! d) as [[|es]|] eqn:E.
  - rewrite detect_denied by exact E. congruence.
  - rewrite detect_readable by congruence. repeat case_match; congruence.
  - rewrite detect_readable by congruence. repeat case_match; congruence.
Qed.

(** *** Strings and names *)

Lemma append_assoc (a b c : string) : (a +:+ b) +:+ c = a +:+ b +:+ c.
Proof.
  induction a as [|x a IH]; [reflexivity|].
  change (String x (a +:+ b +:+ c) = String x ((a +:+ b) +:+ c)) || 
  change (String x ((a +:+ b) +:+ c) = String x (a +:+ b +:+ c)).
  now rewrite IH.
Qed.

Lemma append_empty_r (a : string) : a +:+ "" = a.
Proof.
  induction a as [|x a IH]; [reflexivity|].
  change (String x (a +:+ "") = String x a). now rewrite IH.
Qed.

Lemma append_cons (a : ascii) (s t : string) :
  String a s +:+ t = String a (s +:+ t).
Proof. reflexivity. Qed.

Lemma length_append (s t : string) :
  String.length (s +:+ t) = (String.length s + String.length t)%nat.
Proof.
  induction s as [|a s IH]; [reflexivity|].
  rewrite append_cons. simpl. now rewrite IH.
Qed.

Lemma substring_all (s : string) : substring 0 (String.length s) s = s.
Proof. induction s as [|a s IH]; [reflexivity|]. simpl. now rewrite IH. Qed.

Lemma substring_split (s : string) : forall n,
  (n <= String.length s)%nat ->
  s = substring 0 n s +:+ substring n (String.length s - n) s.
Proof.
  induction s as [|a s IH]; intros n Hn.
  - destruct n; [reflexivity | simpl in Hn; lia].
  - destruct n as [|n].
    + rewrite Nat.sub_0_r.
      change (String a s = substring 0 (String.length (String a s)) (String a s)).
      now rewrite substring_all.
    + simpl in Hn. simpl. rewrite append_cons. f_equal. apply IH. lia.
Qed.

Lemma endswith_split (n suf : string) :
  endswith n suf = true -> exists base, n = base +:+ suf.
Proof.
  unfold endswith. intros H. apply andb_true_iff in H as [Hl He].
  apply Nat.leb_le in Hl. apply String.eqb_eq in He.
  exists (substring 0 (String.length n - String.length suf) n).
  rewrite (substring_split n (String.length n - String.length suf)) at 1 by lia.
  f_equal. rewrite <- He at 3. f_equal. lia.
Qed.

Lemma rfind_append (c : ascii) (s t : string) :
  rfind c (s +:+ t)
  = match rfind c t with
    | Some i => Some (String.length s + i)%nat
    | None => rfind c s
    end.
Proof.
  induction s as [|a s IH].
  - change ("" +:+ t) with t. now destruct (rfind c t).
  - rewrite append_cons. simpl. rewrite IH. now destruct (rfind c t).
Qed.

Lemma substring_prefix (s t : string) :
  substring 0 (String.length s) (s +:+ t) = s.
Proof.
  induction s as [|a s IH].
  - change ("" +:+ t) with t. now destruct t.
  - rewrite append_cons. simpl. now rewrite IH.
Qed.

(** The stem of [base.onnx] is [base], unless [base] is empty. *)
Lemma stem_onnx (base : string) :
  base <> "" -> stem (base +:+ ".onnx") = base.
Proof.
  intros Hb. unfold stem. rewrite rfind_append. simpl.
  rewrite length_append. simpl.
  assert (0 < String.length base)%nat by (destruct base; simpl; [congruence|lia]).
  replace (0 <? String.length base + 0)%nat with true
    by (symmetry; apply Nat.ltb_lt; lia).
  replace (String.length base + 0 <? String.length base + 5 - 1)%nat with true
    by (symmetry; apply Nat.ltb_lt; lia).
  simpl. rewrite Nat.add_0_r. apply substring_prefix.
Qed.

(** *** Locating the dictionary *)

Lemma first_character_dict_skip before item after v :
  forallb lacks_field before = true ->
  dict_lookup "character_dict" item = Some v ->
  first_character_dict (before ++ YDict item :: after) = v.
Proof.
  intros Hb Hv. induction before as [|x before IH]; simpl.
  - now rewrite Hv.
  - simpl in Hb. apply andb_true_iff in Hb as [Hx Hb].
    destruct x; auto. simpl in Hx.
    destruct (dict_lookup "character_dict" kv) eqn:E; auto.
    rewrite bool_decide_eq_true_2 in Hx by eauto. discriminate.
Qed.

Lemma locate_has_character_dict data v :
  has_character_dict data v -> locate_character_dict data = Ok v.
Proof.
  intros [kv pp -> Hpp Hv | kv before item after -> Hpp Hb Hv];
    unfold locate_character_dict, py_in, py_getitem; rewrite Hpp;
    rewrite bool_decide_eq_true_2 by eauto.
  - unfold dict_get. now rewrite Hv.
  - now rewrite (first_character_dict_skip _ _ _ _ Hb Hv).
Qed.

(** *** The result dict *)

Lemma conversion_result_lookup b1 b2 b3 :
  conversion_result b1 b2 b3 !! "paddle_to_onnx" = Some b1 /\
  conversion_result b1 b2 b3 !! "onnx_to_mnn" = Some b2 /\
  conversion_result b1 b2 b3 !! "extract_dict" = Some b3 /\
  conversion_result b1 b2 b3 !! "success" = Some (b1 || b2 || b3).
Proof. destruct b1, b2, b3; vm_compute; auto. Qed.

Section Properties.

Variable tool : list string -> Path -> World -> proc_result.
Variable safe_load : string -> option yaml.
Variable py_repr : yaml -> string.

Set Default Proof Using "Type".

(** *** Writing the dictionary *)

(** The loop that writes the entries appends their lines to the file. *)
Lemma write_entries d out chars : forall w es c,
  fs w !! d = Some (Listing es) ->
  entry_lookup out es = Some c ->
  for_each chars (fun char =>
      let char_str := match char with YNull => "" | _ => py_str py_repr char end in
      f_write d out (char_str +:+ nl)) w
  = (Ok tt, set_fs (<[d := Listing (entry_store out (c +:+ dictionary_text py_repr chars) es)]> (fs w)) w).
Proof.
  induction chars as [|char chars IH]; intros w es c Hd Hc; simpl.
  - unfold ret, set_fs. rewrite append_empty_r, (entry_store_same _ _ _ Hc).
    rewrite (insert_id _ _ _ Hd). now destruct w.
  - unfold bind at 1. unfold f_write at 1. rewrite Hd, Hc.
    erewrite IH; [| apply lookup_insert_eq | apply entry_lookup_store].
    unfold set_fs; simpl. rewrite insert_insert_eq, entry_store_store.
    unfold entry_line. now rewrite append_assoc.
Qed.

Lemma extract_character_dict_denied d w :
  fs w !! d = Some Denied ->
  extract_character_dict safe_load py_repr d w
  = (Raise PermissionError, log (EnterStage ExtractDict) w).
Proof.
  intros Hd. unfold extract_character_dict, bind, emit.
  now rewrite path_exists_denied.
Qed.

Lemma extract_character_dict_skip d w :
  fs w !! d <> Some Denied ->
  has_file w d "inference.yml" && negb (has_file w d "ppocr_keys.txt") = false ->
  extract_character_dict safe_load py_repr d w
  = (Ok (has_file w d "inference.yml"), log (EnterStage ExtractDict) w).
Proof.
  intros Hd H. unfold extract_character_dict, bind, emit.
  rewrite !(path_exists_readable (log _ w) d) by exact Hd.
  change (has_file (log (EnterStage ExtractDict) w)) with (has_file w).
  destruct (has_file w d "inference.yml"); simpl; [|reflexivity].
  rewrite !(path_exists_readable (log _ w) d) by exact Hd.
  change (has_file (log (EnterStage ExtractDict) w)) with (has_file w).
  destruct (has_file w d "ppocr_keys.txt"); simpl; [reflexivity|discriminate].
Qed.

(** What the stage does once past its two existence checks. *)
Lemma extract_character_dict_run d w es text :
  fs w !! d = Some (Listing es) ->
  entry_lookup "inference.yml" es = Some text ->
  entry_lookup "ppocr_keys.txt" es = None ->
  extract_character_dict safe_load py_repr d w
  = let w2 := log (OpenRead d "inference.yml") (log (EnterStage ExtractDict) w) in
    let written content :=
      log (OpenWrite d "ppocr_keys.txt")
        (set_fs (<[d := Listing (entry_store "ppocr_keys.txt" content es)]> (fs w)) w2) in
    match safe_load text with
    | None => (Ok false, w2)
    | Some data =>
        match locate_character_dict data with
        | Raise _ => (Ok false, w2)
        | Ok v =>
            if py_truthy v then
              match py_iter v with
              | Raise _ => (Ok false, written "")
              | Ok chars => (Ok true, written (dictionary_text py_repr chars))
              end
            else (Ok false, w2)
        end
    end.
Proof.
  intros Hd Hy Ho. unfold extract_character_dict, bind at 1, emit.
  assert (Hr : fs (log (EnterStage ExtractDict) w) !! d <> Some Denied)
    by (simpl; congruence).
  unfold bind at 1. rewrite (path_exists_readable _ d _ Hr).
  rewrite (has_file_lookup (log (EnterStage ExtractDict) w) d _ es Hd), Hy, bool_decide_eq_true_2 by eauto. simpl.
  unfold bind at 1. rewrite (path_exists_readable _ d _ Hr).
  rewrite (has_file_lookup (log (EnterStage ExtractDict) w) d _ es Hd), Ho, bool_decide_eq_false_2
    by (intros [? ?]; discriminate).
  simpl. unfold try_except, bind at 1, read_file. simpl. rewrite Hd, Hy.
  unfold bind at 1, lift at 1.
  destruct (safe_load text) as [data|]; [|reflexivity].
  unfold bind at 1, lift at 1.
  destruct (locate_character_dict data) as [v|e]; [|reflexivity].
  destruct (py_truthy v); simpl; [|reflexivity].
  unfold bind at 1, open_write. simpl. rewrite Hd.
  unfold bind at 1, lift at 1.
  destruct (py_iter v) as [chars|e]; [|reflexivity].
  unfold bind at 1.
  erewrite write_entries; [| apply lookup_insert_eq | apply entry_lookup_store ].
  unfold ret, set_fs, log. simpl.
  now rewrite insert_insert_eq, entry_store_store.
Qed.

(** *** The stages, case by case *)

Ltac split_ifs :=
  repeat match goal with
         | |- context [if ?b then _ else _] => destruct b eqn:?; simpl
         end.

Lemma convert_paddle_to_onnx_denied d w :
  fs w !! d = Some Denied ->
  convert_paddle_to_onnx tool d w
  = (Raise PermissionError, log (EnterStage PaddleToOnnx) w).
Proof.
  intros Hd. unfold convert_paddle_to_onnx, bind, emit.
  now rewrite path_exists_denied.
Qed.

Lemma convert_paddle_to_onnx_readable d w :
  fs w !! d <> Some Denied ->
  convert_paddle_to_onnx tool d w
  = let w1 := log (EnterStage PaddleToOnnx) w in
    let cmd := ["paddle2onnx"; "--model_dir"; "."; "--model_filename";
                "inference.json"; "--params_filename"; "inference.pdiparams";
                "--save_file"; "model.onnx"] in
    if negb (has_paddle_files w d) then (Ok false, w1)
    else if has_file w d "model.onnx" then (Ok true, w1)
    else match tool cmd d (log (Spawn cmd d) w1) with
         | ProcError => (Ok false, log (Spawn cmd d) w1)
         | ProcExit rc fs' => (Ok (rc =? 0)%Z, set_fs fs' (log (Spawn cmd d) w1))
         end.
Proof.
  intros Hd. unfold convert_paddle_to_onnx, has_paddle_files, bind, emit.
  rewrite !(path_exists_readable (log _ w) d) by exact Hd.
  change (has_file (log (EnterStage PaddleToOnnx) w)) with (has_file w).
  destruct (has_file w d "inference.json"); simpl; [|reflexivity].
  rewrite !(path_exists_readable (log _ w) d) by exact Hd.
  change (has_file (log (EnterStage PaddleToOnnx) w)) with (has_file w).
  destruct (has_file w d "inference.pdiparams"); simpl; [|reflexivity].
  rewrite !(path_exists_readable (log _ w) d) by exact Hd.
  change (has_file (log (EnterStage PaddleToOnnx) w)) with (has_file w).
  destruct (has_file w d "model.onnx"); simpl; [reflexivity|].
  unfold try_except, subprocess_run, bind, ret.
  destruct (tool _ _ _); simpl; [reflexivity|].
  destruct (returncode =? 0)%Z; reflexivity.
Qed.

Lemma convert_onnx_to_mnn_denied d fp i o w :
  fs w !! d = Some Denied ->
  convert_onnx_to_mnn tool d fp i o w
  = (Raise PermissionError, log (EnterStage OnnxToMnn) w).
Proof.
  intros Hd. unfold convert_onnx_to_mnn, bind, emit.
  now rewrite path_exists_denied.
Qed.

Lemma convert_onnx_to_mnn_readable d fp i o w :
  fs w !! d <> Some Denied ->
  convert_onnx_to_mnn tool d fp i o w
  = let w1 := log (EnterStage OnnxToMnn) w in
    let cmd := (["mnnconvert"; "-f"; "ONNX"; "--modelFile"; i; "--MNNModel"; o;
                 "--bizCode"; "mnn"] ++ (if fp then ["--fp16"] else []))%list in
    if negb (has_file w d i) then (Ok false, w1)
    else if has_file w d o then (Ok true, w1)
    else match tool cmd d (log (Spawn cmd d) w1) with
         | ProcError => (Ok false, log (Spawn cmd d) w1)
         | ProcExit rc fs' => (Ok (rc =? 0)%Z, set_fs fs' (log (Spawn cmd d) w1))
         end.
Proof.
  intros Hd. unfold convert_onnx_to_mnn, bind, emit.
  rewrite !(path_exists_readable (log _ w) d) by exact Hd.
  change (has_file (log (EnterStage OnnxToMnn) w)) with (has_file w).
  destruct (has_file w d i); simpl; [|reflexivity].
  rewrite !(path_exists_readable (log _ w) d) by exact Hd.
  change (has_file (log (EnterStage OnnxToMnn) w)) with (has_file w).
  destruct (has_file w d o); simpl; [reflexivity|].
  unfold try_except, subprocess_run, bind, ret.
  destruct fp; simpl; (destruct (tool _ _ _); simpl; [reflexivity|]);
    destruct (returncode =? 0)%Z; reflexivity.
Qed.

(** *** The pipeline, format by format *)

Ltac same_result :=
  match goal with
  | |- (Ok ?a, ?w) = (Ok ?b, ?w) => replace a with b; [reflexivity|]
  end.

Lemma convert_model_paddle d fp w :
  convert_model tool safe_load py_repr d fp PADDLE w
  = match convert_paddle_to_onnx tool d w with
    | (Raise e, w1) => (Raise e, w1)
    | (Ok false, w1) =>
        match extract_character_dict safe_load py_repr d w1 with
        | (Raise e, w3) => (Raise e, w3)
        | (Ok b3, w3) => (Ok (conversion_result false false b3), w3)
        end
    | (Ok true, w1) =>
        match convert_onnx_to_mnn tool d fp "model.onnx" "model.mnn" w1 with
        | (Raise e, w2) => (Raise e, w2)
        | (Ok b2, w2) =>
            match extract_character_dict safe_load py_repr d w2 with
            | (Raise e, w3) => (Raise e, w3)
            | (Ok b3, w3) => (Ok (conversion_result true b2 b3), w3)
            end
        end
    end.
Proof.
  unfold convert_model, bind at 1, ret at 1. unfold bind at 1, bind at 1.
  destruct (convert_paddle_to_onnx tool d w) as [[[|]|e] w1]; [| |reflexivity].
  - change (getitem (<["paddle_to_onnx":=true]> initial_results) "paddle_to_onnx")
      with true. cbv iota. unfold bind at 1, bind at 1.
    destruct (convert_onnx_to_mnn tool d fp "model.onnx" "model.mnn" w1)
      as [[b2|e] w2]; [|reflexivity].
    unfold ret at 1, bind at 1.
    destruct (extract_character_dict safe_load py_repr d w2) as [[b3|e] w3];
      [|reflexivity].
    unfold ret. same_result. destruct b2, b3; vm_compute; reflexivity.
  - change (getitem (<["paddle_to_onnx":=false]> initial_results) "paddle_to_onnx")
      with false. cbv iota. unfold bind at 1, ret at 1. unfold bind at 1.
    destruct (extract_character_dict safe_load py_repr d w1) as [[b3|e] w3];
      [|reflexivity].
    unfold ret. same_result. destruct b3; vm_compute; reflexivity.
Qed.

Lemma convert_model_onnx d fp w :
  convert_model tool safe_load py_repr d fp ONNX w
  = match glob_onnx w d with
    | [] => (Ok (conversion_result false false false), w)
    | onnx_file :: _ =>
        match convert_onnx_to_mnn tool d fp onnx_file (stem onnx_file +:+ ".mnn") w with
        | (Raise e, w1) => (Raise e, w1)
        | (Ok b, w1) => (Ok (conversion_result false b false), w1)
        end
    end.
Proof.
  unfold convert_model, bind at 1, ret at 1. unfold bind at 1, bind at 1.
  destruct (glob_onnx w d) as [|onnx_file rest].
  - unfold ret. same_result. vm_compute; reflexivity.
  - unfold bind at 1.
    destruct (convert_onnx_to_mnn tool d fp onnx_file (stem onnx_file +:+ ".mnn") w)
      as [[b|e] w1]; [|reflexivity].
    unfold ret. same_result. destruct b; vm_compute; reflexivity.
Qed.

Lemma convert_model_auto d fp w :
  convert_model tool safe_load py_repr d fp AUTO w
  = match detect_input_format d w with
    | (Raise e, w1) => (Raise e, w1)
    | (Ok None, w1) => (Ok {[ "success" := false ]}, w1)
    | (Ok (Some f), w1) => convert_model tool safe_load py_repr d fp f w1
    end.
Proof.
  unfold convert_model at 1, bind at 1.
  destruct (detect_input_format d w) as [[[f|]|e] w1] eqn:E; try reflexivity.
  destruct f; try reflexivity.
  pose proof (detect_world _ _ _ _ E) as ->. now apply detect_not_auto in E.
Qed.

Lemma convert_model_resolved d fp fmt w f :
  resolves_to fmt d w f ->
  convert_model tool safe_load py_repr d fp fmt w
  = convert_model tool safe_load py_repr d fp f w.
Proof.
  intros [[-> _]|[-> H]]; [reflexivity|]. now rewrite convert_model_auto, H.
Qed.

(** With a pinned format the pipeline returns the full result dict. *)
Lemma convert_model_pinned d fp f w r w' :
  f <> AUTO ->
  convert_model tool safe_load py_repr d fp f w = (Ok r, w') ->
  exists b1 b2 b3, r = conversion_result b1 b2 b3.
Proof.
  intros Hf. destruct f; [| |congruence].
  - rewrite convert_model_paddle. repeat case_match; intros [= <- <-]; eauto.
  - rewrite convert_model_onnx. repeat case_match; intros [= <- <-]; eauto.
Qed.

(** The two ways the pipeline returns. *)
Lemma convert_model_returns d fp fmt w r w' :
  convert_model tool safe_load py_repr d fp fmt w = (Ok r, w') ->
  (fmt = AUTO /\ detect_input_format d w = (Ok None, w) /\
   r = {[ "success" := false ]} /\ w' = w) \/
  (exists f, resolves_to fmt d w f /\
     exists b1 b2 b3, r = conversion_result b1 b2 b3).
Proof.
  intros H. destruct (decide (fmt = AUTO)) as [->|Hf].
  - rewrite convert_model_auto in H.
    destruct (detect_input_format d w) as [[[f|]|e] w1] eqn:E; [| |discriminate].
    + pose proof (detect_world _ _ _ _ E) as ->. right. exists f. split.
      * right. auto.
      * eapply convert_model_pinned; [|exact H]. intros ->.
        now apply detect_not_auto in E.
    + pose proof (detect_world _ _ _ _ E) as ->. injection H as <- <-. auto.
  - right. exists fmt. split; [left; auto|].
    eapply convert_model_pinned; eauto.
Qed.

(** *** Traces of the pipeline *)

Lemma convert_paddle_to_onnx_trace d w r w' :
  convert_paddle_to_onnx tool d w = (r, w') ->
  exists evs, trace w' = (trace w ++ EnterStage PaddleToOnnx :: evs)%list /\
    Forall (fun e => exists cmd, e = Spawn cmd d /\ head cmd = Some "paddle2onnx") evs.
Proof.
  destruct (fs w !! d) as [[|es]|] eqn:E.
  1: rewrite convert_paddle_to_onnx_denied by exact E.
  2,3: rewrite convert_paddle_to_onnx_readable by congruence; simpl; split_ifs.
  all: try destruct (tool _ _ _); intros [= <- <-]; simpl;
    rewrite <- ?app_assoc; eexists; split; try reflexivity; repeat constructor; eauto.
Qed.

Lemma convert_onnx_to_mnn_trace d fp i o w r w' :
  convert_onnx_to_mnn tool d fp i o w = (r, w') ->
  exists evs, trace w' = (trace w ++ EnterStage OnnxToMnn :: evs)%list /\
    Forall (fun e => exists cmd, e = Spawn cmd d /\ head cmd = Some "mnnconvert") evs.
Proof.
  destruct (fs w !! d) as [[|es]|] eqn:E.
  1: rewrite convert_onnx_to_mnn_denied by exact E.
  2,3: rewrite convert_onnx_to_mnn_readable by congruence; simpl; split_ifs.
  all: try destruct (tool _ _ _); intros [= <- <-]; simpl;
    rewrite <- ?app_assoc; eexists; split; try reflexivity; repeat constructor; eauto.
Qed.

Lemma extract_character_dict_trace d w r w' :
  extract_character_dict safe_load py_repr d w = (r, w') ->
  exists evs, trace w' = (trace w ++ EnterStage ExtractDict :: evs)%list /\
    Forall (fun e => e = OpenRead d "inference.yml" \/ e = OpenWrite d "ppocr_keys.txt") evs.
Proof.
  destruct (fs w !! d) as [[|es]|] eqn:E.
  - rewrite extract_character_dict_denied by exact E.
    intros [= <- <-]. exists []. split; [reflexivity | constructor].
  - destruct (entry_lookup "inference.yml" es) as [text|] eqn:Hy;
      [destruct (entry_lookup "ppocr_keys.txt" es) as [old|] eqn:Ho|].
    + rewrite extract_character_dict_skip; [| congruence |].
      * intros [= <- <-]. exists []. split; [reflexivity | constructor].
      * rewrite (has_file_lookup w d "ppocr_keys.txt" es E), Ho.
        rewrite (bool_decide_eq_true_2 _ (ltac:(eauto) : is_Some (Some old))).
        apply andb_false_r.
    + rewrite (extract_character_dict_run d w es text E Hy Ho). simpl.
      destruct (safe_load text) as [data|];
        [destruct (locate_character_dict data) as [v|];
         [destruct (py_truthy v); [destruct (py_iter v)|]|]|];
        intros [= <- <-]; simpl; rewrite <- ?app_assoc; simpl;
        eexists; (split; [reflexivity|]);
        repeat first [apply List.Forall_nil | apply List.Forall_cons; [solve [auto]|]].
    + rewrite extract_character_dict_skip; [| congruence |].
      * intros [= <- <-]. exists []. split; [reflexivity | constructor].
      * rewrite (has_file_lookup w d "inference.yml" es E), Hy.
        rewrite bool_decide_eq_false_2 by (intros [? ?]; discriminate).
        reflexivity.
  - rewrite extract_character_dict_skip; [| congruence |].
    + intros [= <- <-]. exists []. split; [reflexivity | constructor].
    + unfold has_file at 1, file_content. rewrite E.
      rewrite bool_decide_eq_false_2 by (intros [? ?]; discriminate).
      reflexivity.
Qed.

(** A stage outcome that is [True] in the result comes from a stage that
    was entered. *)
Lemma convert_model_attempts d fp fmt w r w' :
  convert_model tool safe_load py_repr d fp fmt w = (Ok r, w') ->
  exists evs, trace w' = (trace w ++ evs)%list /\
    forall s, r !! stage_key s = Some true -> In (EnterStage s) evs.
Proof.
  intros H. destruct (convert_model_returns _ _ _ _ _ _ H)
    as [(-> & _ & -> & ->) | (f & Hf & _)].
  - exists []. split; [now rewrite app_nil_r|].
    intros s. destruct s; vm_compute; discriminate.
  - rewrite (convert_model_resolved _ _ _ _ _ Hf) in H.
    assert (Hn : f <> AUTO).
    { destruct Hf as [[_ ?]|[_ E]]; [assumption|].
      intros ->. now apply detect_not_auto in E. }
    destruct f; [| |congruence].
    + rewrite convert_model_paddle in H.
      destruct (convert_paddle_to_onnx tool d w) as [[[|]|e] w1] eqn:E1;
        [| |discriminate].
      * destruct (convert_onnx_to_mnn tool d fp "model.onnx" "model.mnn" w1)
          as [[b2|e] w2] eqn:E2; [|discriminate].
        destruct (extract_character_dict safe_load py_repr d w2)
          as [[b3|e] w3] eqn:E3; [|discriminate].
        injection H as <- <-.
        apply convert_paddle_to_onnx_trace in E1 as (evs1 & T1 & _).
        apply convert_onnx_to_mnn_trace in E2 as (evs2 & T2 & _).
        apply extract_character_dict_trace in E3 as (evs3 & T3 & _).
        rewrite T3, T2, T1, <- !app_assoc. eexists. split; [reflexivity|].
        intros s _. destruct s; rewrite ?in_app_iff; simpl; rewrite ?in_app_iff;
          simpl; auto 10.
      * destruct (extract_character_dict safe_load py_repr d w1)
          as [[b3|e] w3] eqn:E3; [|discriminate].
        injection H as <- <-.
        apply convert_paddle_to_onnx_trace in E1 as (evs1 & T1 & _).
        apply extract_character_dict_trace in E3 as (evs3 & T3 & _).
        rewrite T3, T1, <- !app_assoc. eexists. split; [reflexivity|].
        intros s Hs. destruct s; rewrite ?in_app_iff; simpl; auto 10.
        destruct (conversion_result_lookup false false b3) as (_ & L & _).
        simpl in Hs. rewrite L in Hs. discriminate.
    + rewrite convert_model_onnx in H.
      destruct (glob_onnx w d) as [|onnx_file rest].
      * injection H as <- <-. exists []. split; [now rewrite app_nil_r|].
        intros s. destruct s; vm_compute; discriminate.
      * destruct (convert_onnx_to_mnn tool d fp onnx_file (stem onnx_file +:+ ".mnn") w)
          as [[b2|e] w2] eqn:E2; [|discriminate].
        injection H as <- <-.
        apply convert_onnx_to_mnn_trace in E2 as (evs2 & T2 & _).
        rewrite T2. eexists. split; [reflexivity|].
        intros s Hs. destruct s; simpl; auto.
        -- destruct (conversion_result_lookup false b2 false) as (L & _).
           simpl in Hs. rewrite L in Hs. discriminate.
        -- destruct (conversion_result_lookup false b2 false) as (_ & _ & L & _).
           simpl in Hs. rewrite L in Hs. discriminate.
Qed.

(** *** The batch loop *)

Lemma loop_body_returns fp fmt st model_dir w :
  exists st' w', loop_body tool safe_load py_repr fp fmt st model_dir w = (Ok st', w') /\
    (st' = count_success st \/ st' = record_failure (path_name model_dir) st).
Proof.
  unfold loop_body, try_except, bind.
  destruct (convert_model tool safe_load py_repr model_dir fp fmt w) as [[r|e] w'].
  - destruct (default false (r !! "success")); unfold ret; eauto.
  - unfold ret. eauto.
Qed.

Lemma loop_body_raise fp fmt st model_dir w e w' :
  convert_model tool safe_load py_repr model_dir fp fmt w = (Raise e, w') ->
  loop_body tool safe_load py_repr fp fmt st model_dir w
  = (Ok (record_failure (path_name model_dir) st), w').
Proof. intros H. unfold loop_body, try_except, bind. now rewrite H. Qed.

Lemma main_loop_app fp fmt before after : forall st w,
  main_loop tool safe_load py_repr fp fmt (before ++ after) st w
  = match main_loop tool safe_load py_repr fp fmt before st w with
    | (Ok st1, w1) => main_loop tool safe_load py_repr fp fmt after st1 w1
    | (Raise e, w1) => (Raise e, w1)
    end.
Proof.
  induction before as [|m before IH]; intros st w; [reflexivity|].
  simpl. unfold bind.
  destruct (loop_body tool safe_load py_repr fp fmt st m w) as [[st'|e] w'];
    [apply IH | reflexivity].
Qed.

(** The loop runs to its end, keeps what was recorded and only adds to it. *)
Lemma main_loop_returns fp fmt dirs : forall st w,
  exists st' w' later,
    main_loop tool safe_load py_repr fp fmt dirs st w = (Ok st', w') /\
    failed_models st' = (failed_models st ++ later)%list /\
    success_count st <= success_count st'.
Proof.
  induction dirs as [|m dirs IH]; intros st w.
  - exists st, w, []. simpl. rewrite app_nil_r. repeat split. lia.
  - simpl. unfold bind.
    destruct (loop_body_returns fp fmt st m w) as (st1 & w1 & -> & Hst).
    destruct (IH st1 w1) as (st' & w' & later & -> & Hf & Hc).
    destruct Hst as [-> | ->]; simpl in Hf, Hc.
    + exists st', w', later. repeat split; [exact Hf | lia].
    + exists st', w', (path_name m :: later). repeat split; [|exact Hc].
      now rewrite Hf, <- app_assoc.
Qed.

(** *** The claims *)

(** C3.  Each of the three stages, run in a directory that holds its
    required inputs and already holds its output, returns [True]; the only
    event of the run is the entry of the stage, so no process is spawned, no
    file is opened and the file system is left as it was. *)
Theorem stage_idempotent :
  forall (w : World) (model_dir : Path),
    (has_file w model_dir "inference.json" = true ->
     has_file w model_dir "inference.pdiparams" = true ->
     has_file w model_dir "model.onnx" = true ->
     convert_paddle_to_onnx tool model_dir w
       = (Ok true, log (EnterStage PaddleToOnnx) w)) /\
    (forall use_fp16 onnx_filename mnn_filename,
     has_file w model_dir onnx_filename = true ->
     has_file w model_dir mnn_filename = true ->
     convert_onnx_to_mnn tool model_dir use_fp16 onnx_filename mnn_filename w
       = (Ok true, log (EnterStage OnnxToMnn) w)) /\
    (has_file w model_dir "inference.yml" = true ->
     has_file w model_dir "ppocr_keys.txt" = true ->
     extract_character_dict safe_load py_repr model_dir w
       = (Ok true, log (EnterStage ExtractDict) w)).
Proof.
  intros w d. split; [|split].
  - intros Hj Hp Ho. unfold convert_paddle_to_onnx, bind, emit. 
    rewrite (path_exists_true (log _ w) d "inference.json" Hj). simpl.
    rewrite (path_exists_true (log _ w) d "inference.pdiparams" Hp). simpl.
    rewrite (path_exists_true (log _ w) d "model.onnx" Ho). reflexivity.
  - intros fp i o Hi Ho. unfold convert_onnx_to_mnn, bind, emit.
    rewrite (path_exists_true (log _ w) d i Hi). simpl.
    rewrite (path_exists_true (log _ w) d o Ho). reflexivity.
  - intros Hi Ho. unfold extract_character_dict, bind, emit.
    rewrite (path_exists_true (log _ w) d _ Hi). simpl.
    rewrite (path_exists_true (log _ w) d _ Ho). reflexivity.
Qed.

(** C5.  A directory with both Paddle files and some [*.onnx] file is
    detected as PADDLE.  Whenever detection returns, it returns PADDLE
    exactly when the Paddle signal is there, ONNX exactly when the Paddle
    signal is absent and some [*.onnx] file exists, and no format otherwise;
    and it does return on every directory the process may inspect. *)
Theorem detection_precedence :
  forall (w : World) (d : Path),
    (has_paddle_files w d = true -> has_onnx_file w d ->
     detect_input_format d w = (Ok (Some PADDLE), w)) /\
    (forall f w', detect_input_format d w = (Ok f, w') ->
       (f = Some PADDLE <-> has_paddle_files w d = true) /\
       (f = Some ONNX <-> has_paddle_files w d = false /\ has_onnx_file w d) /\
       (f = None <-> has_paddle_files w d = false /\ ~ has_onnx_file w d)) /\
    (fs w !! d <> Some Denied -> exists f, detect_input_format d w = (Ok f, w)).
Proof.
  intros w d. split; [|split].
  - intros Hp _. rewrite detect_readable.
    + now rewrite Hp.
    + apply andb_true_iff in Hp as [Hj _]. eapply has_file_not_denied, Hj.
  - intros f w' H.
    assert (Hd : fs w !! d <> Some Denied).
    { intros Hd. rewrite (detect_denied _ _ Hd) in H. discriminate. }
    rewrite (detect_readable _ _ Hd) in H. injection H as <- <-.
    rewrite <- glob_onnx_nonempty.
    destruct (has_paddle_files w d).
    + repeat split; try congruence; intros [? ?]; congruence.
    + case_bool_decide as Hg.
      * repeat split; try congruence; intros [? ?]; congruence.
      * repeat split; try congruence; intros [? ?];
          first [congruence | exfalso; auto].
  - intros Hd. rewrite (detect_readable _ _ Hd). eexists. reflexivity.
Qed.

(** C8, amended.  When [inference.yml] loads as a configuration whose
    [PostProcess] holds [character_dict: [a, b, c]], as a mapping or inside a
    list, and [ppocr_keys.txt] does not exist yet, dictionary extraction
    returns [True] and leaves [ppocr_keys.txt] with the three lines of [a],
    [b] and [c]; the line of a null entry is empty, the line of a string is
    the string. *)
Theorem dictionary_written :
  forall (w : World) (d : Path) (text : string) (data a b c : yaml),
    file_content w d "inference.yml" = Some text ->
    has_file w d "ppocr_keys.txt" = false ->
    safe_load text = Some data ->
    has_character_dict data (YList [a; b; c]) ->
    exists w',
      extract_character_dict safe_load py_repr d w = (Ok true, w') /\
      file_content w' d "ppocr_keys.txt"
        = Some (entry_line py_repr a +:+ entry_line py_repr b +:+ entry_line py_repr c) /\
      entry_line py_repr YNull = nl /\
      (forall s, entry_line py_repr (YStr s) = s +:+ nl) /\
      trace w' = (trace w ++ [EnterStage ExtractDict; OpenRead d "inference.yml";
                              OpenWrite d "ppocr_keys.txt"])%list.
Proof.
  intros w d text data a b c Hy Ho Hl Hs.
  destruct (file_content_listing _ _ _ _ Hy) as (es & Hd & Hye).
  pose proof (has_file_false_lookup _ _ _ _ Hd Ho) as Hoe.
  rewrite (extract_character_dict_run d w es text Hd Hye Hoe).
  rewrite Hl, (locate_has_character_dict _ _ Hs). simpl.
  eexists. split; [reflexivity|]. split; [|split; [reflexivity|split; [reflexivity|]]].
  - unfold file_content. simpl. rewrite lookup_insert_eq, entry_lookup_store.
    now rewrite append_empty_r.
  - simpl. now rewrite <- !app_assoc.
Qed.

(** C10.  When [inference.yml] exists, [ppocr_keys.txt] does not, the file
    loads, and the [character_dict] field is found with an empty list, an
    empty string or any other falsy value, dictionary extraction returns
    [False], leaves the file system as it was (so no output file appears)
    and only reads the configuration. *)
Theorem falsy_dictionary_fails :
  forall (w : World) (d : Path) (text : string) (data v : yaml),
    file_content w d "inference.yml" = Some text ->
    has_file w d "ppocr_keys.txt" = false ->
    safe_load text = Some data ->
    has_character_dict data v ->
    v = YList [] \/ v = YStr "" \/ py_truthy v = false ->
    exists w',
      extract_character_dict safe_load py_repr d w = (Ok false, w') /\
      fs w' = fs w /\
      has_file w' d "ppocr_keys.txt" = false /\
      trace w' = (trace w ++ [EnterStage ExtractDict; OpenRead d "inference.yml"])%list.
Proof.
  intros w d text data v Hy Ho Hl Hs Hv.
  assert (Hf : py_truthy v = false) by (destruct Hv as [->|[->|Hv]]; auto).
  destruct (file_content_listing _ _ _ _ Hy) as (es & Hd & Hye).
  pose proof (has_file_false_lookup _ _ _ _ Hd Ho) as Hoe.
  rewrite (extract_character_dict_run d w es text Hd Hye Hoe).
  rewrite Hl, (locate_has_character_dict _ _ Hs), Hf. simpl.
  eexists. split; [reflexivity|]. repeat split.
  - exact Ho.
  - simpl. now rewrite <- !app_assoc.
Qed.

(** C1.  A run of the pipeline in PADDLE mode (pinned, or detected) that
    returns a result has entered dictionary extraction, whatever the outcome
    of the Paddle-to-ONNX stage.  When that stage returned [False] the
    ONNX-to-MNN outcome is still [False], the ONNX-to-MNN stage was not
    entered, the only process spawned, if any, is [paddle2onnx], and
    dictionary extraction ran in the world the first stage left. *)
Theorem paddle_short_circuit :
  forall (w : World) (d : Path) (use_fp16 : bool) (input_format : InputFormat)
         (r : gmap string bool) (w' : World),
    resolves_to input_format d w PADDLE ->
    convert_model tool safe_load py_repr d use_fp16 input_format w = (Ok r, w') ->
    exists evs p2o w1,
      trace w' = (trace w ++ evs)%list /\
      convert_paddle_to_onnx tool d w = (Ok p2o, w1) /\
      r !! "paddle_to_onnx" = Some p2o /\
      In (EnterStage ExtractDict) evs /\
      (p2o = false ->
         r !! "onnx_to_mnn" = Some false /\
         ~ In (EnterStage OnnxToMnn) evs /\
         (forall cmd cwd, In (Spawn cmd cwd) evs -> head cmd = Some "paddle2onnx") /\
         exists dict,
           extract_character_dict safe_load py_repr d w1 = (Ok dict, w') /\
           r !! "extract_dict" = Some dict).
Proof.
  intros w d fp fmt r w' Hf H.
  rewrite (convert_model_resolved _ _ _ _ _ Hf), convert_model_paddle in H.
  destruct (convert_paddle_to_onnx tool d w) as [[[|]|e] w1] eqn:E1;
    [| |discriminate].
  - destruct (convert_onnx_to_mnn tool d fp "model.onnx" "model.mnn" w1)
      as [[b2|e] w2] eqn:E2; [|discriminate].
    destruct (extract_character_dict safe_load py_repr d w2)
      as [[b3|e] w3] eqn:E3; [|discriminate].
    injection H as <- <-.
    apply convert_paddle_to_onnx_trace in E1 as (evs1 & T1 & _).
    apply convert_onnx_to_mnn_trace in E2 as (evs2 & T2 & _).
    apply extract_character_dict_trace in E3 as (evs3 & T3 & _).
    rewrite T3, T2, T1, <- !app_assoc.
    destruct (conversion_result_lookup true b2 b3) as (L1 & _).
    eexists _, true, w1. split; [reflexivity|].
    split; [reflexivity|]. split; [exact L1|]. split; [|discriminate].
    simpl. rewrite !in_app_iff. simpl. rewrite !in_app_iff. simpl. auto 10.
  - destruct (extract_character_dict safe_load py_repr d w1)
      as [[b3|e] w3] eqn:E3; [|discriminate].
    injection H as <- <-.
    apply convert_paddle_to_onnx_trace in E1 as (evs1 & T1 & F1).
    pose proof E3 as E3'.
    apply extract_character_dict_trace in E3' as (evs3 & T3 & F3).
    rewrite T3, T1, <- !app_assoc.
    destruct (conversion_result_lookup false false b3) as (L1 & L2 & L3 & _).
    eexists _, false, w1. split; [reflexivity|].
    split; [reflexivity|]. split; [exact L1|].
    split; [simpl; rewrite in_app_iff; simpl; auto|].
    intros _. split; [exact L2|]. rewrite List.Forall_forall in F1, F3.
    split; [|split].
    + simpl. rewrite in_app_iff. simpl.
      intros [?|[Hin|[?|Hin]]]; try discriminate.
      * apply F1 in Hin as (? & ? & _). discriminate.
      * apply F3 in Hin as [?|?]; discriminate.
    + intros cmd cwd. simpl. rewrite in_app_iff. simpl.
      intros [?|[Hin|[?|Hin]]]; try discriminate.
      * apply F1 in Hin as (c & [= -> ->] & Hc). exact Hc.
      * apply F3 in Hin as [?|?]; discriminate.
    + eauto.
Qed.

(** C2.  In every result the pipeline returns, [success] is [True] exactly
    when some stage was entered during the run and has outcome [True] in the
    result; in particular it is [True] as soon as [extract_dict] is. *)
Theorem lenient_success :
  forall (w : World) (d : Path) (use_fp16 : bool) (input_format : InputFormat)
         (r : gmap string bool) (w' : World),
    convert_model tool safe_load py_repr d use_fp16 input_format w = (Ok r, w') ->
    exists (success : bool) (evs : list event),
      r !! "success" = Some success /\
      trace w' = (trace w ++ evs)%list /\
      (success = true <->
         exists s, In (EnterStage s) evs /\ r !! stage_key s = Some true) /\
      (r !! "extract_dict" = Some true -> success = true).
Proof.
  intros w d fp fmt r w' H.
  destruct (convert_model_attempts _ _ _ _ _ _ H) as (evs & T & A).
  destruct (convert_model_returns _ _ _ _ _ _ H)
    as [(_ & _ & -> & _) | (_ & _ & b1 & b2 & b3 & ->)].
  - exists false, evs. split; [reflexivity|]. split; [exact T|]. split.
    + split; [discriminate|]. intros (s & _ & Hs). destruct s; discriminate.
    + discriminate.
  - destruct (conversion_result_lookup b1 b2 b3) as (L1 & L2 & L3 & L4).
    exists (b1 || b2 || b3), evs. split; [exact L4|]. split; [exact T|]. split.
    + split.
      * intros Hb. apply orb_true_iff in Hb as [Hb|Hb];
          [apply orb_true_iff in Hb as [Hb|Hb]|]; subst.
        -- exists PaddleToOnnx. split; [apply A|]; exact L1.
        -- exists OnnxToMnn. split; [apply A|]; exact L2.
        -- exists ExtractDict. split; [apply A|]; exact L3.
      * intros (s & _ & Hs). destruct s; simpl in Hs.
        -- rewrite L1 in Hs. injection Hs as ->. reflexivity.
        -- rewrite L2 in Hs. injection Hs as ->. now rewrite orb_true_r.
        -- rewrite L3 in Hs. injection Hs as ->. now rewrite orb_true_r.
    + rewrite L3. intros [= ->]. now rewrite orb_true_r.
Qed.

(** C4.  When the requested format is AUTO and detection finds no format,
    the pipeline returns at once with [success = False]: the world is the
    one it started from, so no stage was entered and nothing was run, and
    the result holds no stage outcome. *)
Theorem undetectable_format_fails :
  forall (w : World) (d : Path) (use_fp16 : bool) (w1 : World),
    detect_input_format d w = (Ok None, w1) ->
    exists (r : gmap string bool) (w' : World),
      convert_model tool safe_load py_repr d use_fp16 AUTO w = (Ok r, w') /\
      r !! "success" = Some false /\
      fs w' = fs w /\
      trace w' = trace w /\
      forall s, r !! stage_key s = None.
Proof.
  intros w d fp w1 H. pose proof (detect_world _ _ _ _ H) as ->.
  exists {[ "success" := false ]}, w. rewrite convert_model_auto, H.
  repeat split. intros s. destruct s; reflexivity.
Qed.

(** C9, amended.  A result returned for a pinned or detected format holds
    [success] and an outcome for each of [paddle_to_onnx], [onnx_to_mnn] and
    [extract_dict]; the result returned when AUTO detects no format is the
    dict with the single entry [success = False]. *)
Theorem result_population :
  forall (w : World) (d : Path) (use_fp16 : bool) (input_format : InputFormat)
         (r : gmap string bool) (w' : World),
    convert_model tool safe_load py_repr d use_fp16 input_format w = (Ok r, w') ->
    ((exists f, resolves_to input_format d w f) -> fully_populated r) /\
    (input_format = AUTO -> detect_input_format d w = (Ok None, w) ->
     r = {[ "success" := false ]}).
Proof.
  intros w d fp fmt r w' H.
  destruct (convert_model_returns _ _ _ _ _ _ H)
    as [(-> & E & -> & _) | (f & Hf & b1 & b2 & b3 & ->)].
  - split; [|reflexivity].
    intros (f & [[? ?]|[_ E']]); congruence.
  - destruct (conversion_result_lookup b1 b2 b3) as (L1 & L2 & L3 & L4). split.
    + intros _. split; [eauto|].
      intros k [<-|[<-|[<-|[]]]]; eauto.
    + intros -> E. destruct Hf as [[? ?]|[_ E']]; congruence.
Qed.

(** C7.  In direct-ONNX mode, in a directory whose glob for [*.onnx] finds
    [onnx_file] first, the pipeline runs the ONNX-to-MNN stage on [onnx_file]
    with output name [stem onnx_file] followed by [.mnn], which for
    [base.onnx] is [base.mnn]; the result carries that stage's outcome, and
    when the output is not there yet the run spawns [mnnconvert] with
    exactly these two file names. *)
Theorem direct_onnx_naming :
  forall (w : World) (d : Path) (use_fp16 : bool) (input_format : InputFormat)
         (onnx_file : string) (others : list string),
    resolves_to input_format d w ONNX ->
    glob_onnx w d = onnx_file :: others ->
    let mnn_file := stem onnx_file +:+ ".mnn" in
    (exists base, onnx_file = base +:+ ".onnx" /\
                  (base <> "" -> mnn_file = base +:+ ".mnn")) /\
    (exists o2m w',
       convert_onnx_to_mnn tool d use_fp16 onnx_file mnn_file w = (Ok o2m, w') /\
       convert_model tool safe_load py_repr d use_fp16 input_format w
       = (Ok (conversion_result false o2m false), w')) /\
    (has_file w d mnn_file = false ->
     exists r w',
       convert_model tool safe_load py_repr d use_fp16 input_format w = (Ok r, w') /\
       trace w'
       = (trace w ++
          [EnterStage OnnxToMnn;
           Spawn (["mnnconvert"; "-f"; "ONNX"; "--modelFile"; onnx_file;
                   "--MNNModel"; mnn_file; "--bizCode"; "mnn"]
                  ++ (if use_fp16 then ["--fp16"] else [])) d])%list).
Proof.
  intros w d fp fmt onnx_file others Hf Hg mnn_file.
  assert (Hin : has_file w d onnx_file = true /\ endswith onnx_file ".onnx" = true).
  { apply glob_onnx_In. rewrite Hg. now left. }
  destruct Hin as [Hfile Hend].
  pose proof (has_file_not_denied _ _ _ Hfile) as Hd.
  rewrite (convert_model_resolved _ _ _ _ _ Hf), convert_model_onnx, Hg.
  fold mnn_file. rewrite (convert_onnx_to_mnn_readable d fp onnx_file mnn_file w Hd).
  rewrite Hfile. cbn [negb]. cbv zeta. split; [|split].
  - destruct (endswith_split _ _ Hend) as (base & ->). exists base.
    split; [reflexivity|]. intros Hb. unfold mnn_file. now rewrite stem_onnx.
  - destruct (has_file w d mnn_file); [eauto|].
    destruct (tool _ _ _); eauto.
  - intros ->. destruct (tool _ _ _); do 2 eexists; (split; [reflexivity|]);
      simpl; now rewrite <- app_assoc.
Qed.

(** C6.  In the batch loop over the sorted directories, when the pipeline
    raises on one model after the earlier ones left the counters [st1], the
    batch still returns normally: the loop goes on with the later models from
    [st1] with that model's name added to the failed list, the failures
    recorded before stay, in order, in front of it, and the success count
    does not go down. *)
Theorem batch_isolation :
  forall (w : World) (use_fp16 : bool) (input_format : InputFormat)
         (model_dirs before after : list Path) (model_dir : Path)
         (st1 : BatchState) (w1 : World) (e : exn) (w2 : World),
    sorted model_dirs = (before ++ model_dir :: after)%list ->
    main_loop tool safe_load py_repr use_fp16 input_format before (mkBatch 0 []) w
      = (Ok st1, w1) ->
    convert_model tool safe_load py_repr model_dir use_fp16 input_format w1
      = (Raise e, w2) ->
    exists (st3 : BatchState) (w3 : World) (later : list string),
      main_batch tool safe_load py_repr use_fp16 input_format model_dirs w
        = (Ok st3, w3) /\
      main_loop tool safe_load py_repr use_fp16 input_format after
        (record_failure (path_name model_dir) st1) w2 = (Ok st3, w3) /\
      failed_models st3 = (failed_models st1 ++ path_name model_dir :: later)%list /\
      success_count st1 <= success_count st3.
Proof.
  intros w fp fmt model_dirs before after m st1 w1 e w2 Hs Hb Hr.
  destruct (main_loop_returns fp fmt after (record_failure (path_name m) st1) w2)
    as (st3 & w3 & later & Hl & Hf & Hc).
  exists st3, w3, later. unfold main_batch.
  rewrite Hs, main_loop_app, Hb. simpl. unfold bind at 1.
  rewrite (loop_body_raise fp fmt st1 m w1 e w2 Hr).
  split; [exact Hl|]. split; [exact Hl|]. split; [|exact Hc].
  rewrite Hf. simpl. now rewrite <- app_assoc.
Qed.


(** *** Further properties of the stages *)

(** X1.  In a directory the process may inspect, the Paddle-to-ONNX stage
    returns [False] as soon as one of [inference.json] and
    [inference.pdiparams] is missing, even when [model.onnx] is already
    there: nothing is spawned and the file system stays as it was. *)
Theorem paddle_to_onnx_missing_input :
  forall (w : World) (d : Path),
    fs w !! d <> Some Denied ->
    has_paddle_files w d = false ->
    convert_paddle_to_onnx tool d w = (Ok false, log (EnterStage PaddleToOnnx) w).
Proof.
  intros w d Hd Hp. rewrite (convert_paddle_to_onnx_readable d w Hd).
  cbv zeta. now rewrite Hp.
Qed.

(** X2.  With both inputs present and no [model.onnx] yet, the
    Paddle-to-ONNX stage spawns the exporter exactly once, in the model
    directory; it returns [True] exactly when the exporter exits with
    status 0, a start failure becomes [False], and the file system is the
    one the exporter left. *)
Theorem paddle_to_onnx_runs_exporter :
  forall (w : World) (d : Path),
    has_paddle_files w d = true ->
    has_file w d "model.onnx" = false ->
    let w1 := log (Spawn paddle2onnx_cmd d) (log (EnterStage PaddleToOnnx) w) in
    exists (b : bool) (w' : World),
      convert_paddle_to_onnx tool d w = (Ok b, w') /\
      trace w' = (trace w ++ [EnterStage PaddleToOnnx; Spawn paddle2onnx_cmd d])%list /\
      (b = true <-> exits_zero tool paddle2onnx_cmd d w1) /\
      fs w' = fs_after tool paddle2onnx_cmd d w1.
Proof.
  intros w d Hp Ho w1.
  assert (Hd : fs w !! d <> Some Denied).
  { apply andb_true_iff in Hp as [Hj _]. eapply has_file_not_denied, Hj. }
  rewrite (convert_paddle_to_onnx_readable d w Hd). cbv zeta.
  rewrite Hp, Ho. cbn [negb]. unfold exits_zero, fs_after.
  fold paddle2onnx_cmd. fold w1.
  destruct (tool paddle2onnx_cmd d w1) as [|rc fs'] eqn:E.
  - exists false, w1. split; [reflexivity|]. split.
    + unfold w1. simpl. now rewrite <- app_assoc.
    + split; [|reflexivity]. split; [discriminate|]. intros (? & ?). discriminate.
  - exists (rc =? 0)%Z, (set_fs fs' w1). split; [reflexivity|]. split.
    + unfold w1. simpl. now rewrite <- app_assoc.
    + split; [|reflexivity]. rewrite Z.eqb_eq. split.
      * intros ->. exists fs'. reflexivity.
      * intros (? & [= -> _]). reflexivity.
Qed.

(** X3.  In a directory the process may inspect, the ONNX-to-MNN stage
    returns [False] when its input file is missing, even when the output
    is already there: nothing is spawned and the file system stays as it
    was. *)
Theorem onnx_to_mnn_missing_input :
  forall (w : World) (d : Path) (use_fp16 : bool) (onnx_filename mnn_filename : string),
    fs w !! d <> Some Denied ->
    has_file w d onnx_filename = false ->
    convert_onnx_to_mnn tool d use_fp16 onnx_filename mnn_filename w
      = (Ok false, log (EnterStage OnnxToMnn) w).
Proof.
  intros w d fp i o Hd Hi. rewrite (convert_onnx_to_mnn_readable d fp i o w Hd).
  cbv zeta. now rewrite Hi.
Qed.

(** X4.  With the input present and the output absent, the ONNX-to-MNN
    stage spawns the converter exactly once, in the model directory, on the
    two file names, with [--fp16] as last argument exactly when
    [use_fp16] is set; it returns [True] exactly when the converter exits
    with status 0, and the file system is the one the converter left. *)
Theorem onnx_to_mnn_runs_converter :
  forall (w : World) (d : Path) (use_fp16 : bool) (onnx_filename mnn_filename : string),
    has_file w d onnx_filename = true ->
    has_file w d mnn_filename = false ->
    let cmd := mnnconvert_cmd use_fp16 onnx_filename mnn_filename in
    let w1 := log (Spawn cmd d) (log (EnterStage OnnxToMnn) w) in
    exists (b : bool) (w' : World),
      convert_onnx_to_mnn tool d use_fp16 onnx_filename mnn_filename w = (Ok b, w') /\
      trace w' = (trace w ++ [EnterStage OnnxToMnn; Spawn cmd d])%list /\
      (List.last cmd "" = "--fp16" <-> use_fp16 = true) /\
      (b = true <-> exits_zero tool cmd d w1) /\
      fs w' = fs_after tool cmd d w1.
Proof.
  intros w d fp i o Hi Ho cmd w1.
  pose proof (has_file_not_denied _ _ _ Hi) as Hd.
  rewrite (convert_onnx_to_mnn_readable d fp i o w Hd). cbv zeta.
  rewrite Hi, Ho. cbn [negb]. unfold exits_zero, fs_after.
  fold (mnnconvert_cmd fp i o). fold cmd. fold w1.
  assert (Hlast : List.last cmd "" = "--fp16" <-> fp = true).
  { unfold cmd, mnnconvert_cmd. destruct fp; simpl; split; congruence. }
  destruct (tool cmd d w1) as [|rc fs'] eqn:E.
  - exists false, w1. split; [reflexivity|]. split.
    + unfold w1. simpl. now rewrite <- app_assoc.
    + split; [exact Hlast|]. split; [|reflexivity].
      split; [discriminate|]. intros (? & ?). discriminate.
  - exists (rc =? 0)%Z, (set_fs fs' w1). split; [reflexivity|]. split.
    + unfold w1. simpl. now rewrite <- app_assoc.
    + split; [exact Hlast|]. split; [|reflexivity]. rewrite Z.eqb_eq. split.
      * intros ->. exists fs'. reflexivity.
      * intros (? & [= -> _]). reflexivity.
Qed.

(** *** Further properties of dictionary extraction *)

(** The three ways a run of the extraction goes. *)
Lemma extract_character_dict_cases d w :
  (fs w !! d = Some Denied /\
   extract_character_dict safe_load py_repr d w
   = (Raise PermissionError, log (EnterStage ExtractDict) w)) \/
  (fs w !! d <> Some Denied /\
   has_file w d "inference.yml" && negb (has_file w d "ppocr_keys.txt") = false /\
   extract_character_dict safe_load py_repr d w
   = (Ok (has_file w d "inference.yml"), log (EnterStage ExtractDict) w)) \/
  (exists es text,
     fs w !! d = Some (Listing es) /\
     entry_lookup "inference.yml" es = Some text /\
     entry_lookup "ppocr_keys.txt" es = None).
Proof.
  destruct (fs w !! d) as [[|es]|] eqn:E.
  - left. split; [reflexivity|]. now apply extract_character_dict_denied.
  - destruct (entry_lookup "inference.yml" es) as [text|] eqn:Hy;
      [destruct (entry_lookup "ppocr_keys.txt" es) as [old|] eqn:Ho|].
    + right; left. split; [congruence|].
      assert (H : has_file w d "inference.yml" && negb (has_file w d "ppocr_keys.txt") = false).
      { rewrite (has_file_lookup w d "ppocr_keys.txt" es E), Ho.
        rewrite bool_decide_eq_true_2 by (exists old; reflexivity).
        apply andb_false_r. }
      split; [exact H|]. apply extract_character_dict_skip; [congruence | exact H].
    + right; right. exists es, text. auto.
    + right; left. split; [congruence|].
      assert (H : has_file w d "inference.yml" && negb (has_file w d "ppocr_keys.txt") = false).
      { rewrite (has_file_lookup w d "inference.yml" es E), Hy.
        rewrite bool_decide_eq_false_2 by (intros [? ?]; discriminate).
        reflexivity. }
      split; [exact H|]. apply extract_character_dict_skip; [congruence | exact H].
  - right; left. split; [congruence|].
    assert (H : has_file w d "inference.yml" && negb (has_file w d "ppocr_keys.txt") = false).
    { unfold has_file at 1, file_content. rewrite E.
      rewrite bool_decide_eq_false_2 by (intros [? ?]; discriminate).
      reflexivity. }
    split; [exact H|]. apply extract_character_dict_skip; [congruence | exact H].
Qed.

(** The extraction leaves the file system as it was, or stores some
    content under [ppocr_keys.txt] in the model directory. *)
Lemma extract_character_dict_fs d w r w' :
  extract_character_dict safe_load py_repr d w = (r, w') ->
  fs w' = fs w \/
  exists es content,
    fs w !! d = Some (Listing es) /\
    entry_lookup "inference.yml" es <> None /\
    r <> Raise PermissionError /\
    fs w' = <[d := Listing (entry_store "ppocr_keys.txt" content es)]> (fs w).
Proof.
  destruct (extract_character_dict_cases d w)
    as [(_ & ->) | [(_ & _ & ->) | (es & text & E & Hy & Ho)]].
  - intros [= <- <-]. now left.
  - intros [= <- <-]. now left.
  - rewrite (extract_character_dict_run d w es text E Hy Ho). cbv zeta.
    destruct (safe_load text) as [data|];
      [destruct (locate_character_dict data) as [v|];
       [destruct (py_truthy v); [destruct (py_iter v)|]|]|];
      intros [= <- <-]; try (now left);
      right; eexists es, _; (split; [exact E|]); (split; [congruence|]);
      (split; [discriminate|]); reflexivity.
Qed.

(** X5.  Whatever its outcome, dictionary extraction spawns no process, and
    every file other than [ppocr_keys.txt] of the model directory, in that
    directory or any other, has the content it had before. *)
Theorem extraction_touches_only_output :
  forall (w : World) (d : Path) (r : Res bool) (w' : World),
    extract_character_dict safe_load py_repr d w = (r, w') ->
    (forall d' n, d' <> d \/ n <> "ppocr_keys.txt" ->
                  file_content w' d' n = file_content w d' n) /\
    exists evs, trace w' = (trace w ++ evs)%list /\
                forall cmd cwd, ~ In (Spawn cmd cwd) evs.
Proof.
  intros w d r w' H. split.
  - intros d' n Hn. unfold file_content.
    destruct (extract_character_dict_fs _ _ _ _ H) as [-> | (es & c & E & _ & _ & ->)];
      [reflexivity|].
    destruct (decide (d' = d)) as [->|Hd].
    + rewrite lookup_insert_eq, E. destruct Hn as [Hn|Hn]; [congruence|].
      now apply entry_lookup_store_ne.
    + now rewrite lookup_insert_ne by congruence.
  - destruct (extract_character_dict_trace _ _ _ _ H) as (evs & T & F).
    exists (EnterStage ExtractDict :: evs). split; [exact T|].
    intros cmd cwd [?|Hin]; [discriminate|].
    rewrite List.Forall_forall in F. apply F in Hin as [?|?]; discriminate.
Qed.

(** X6.  When [inference.yml] exists, [ppocr_keys.txt] does not, the file
    loads and the value found for [character_dict] is truthy and can be
    iterated (a list gives its entries, a string its characters, a mapping
    its keys), extraction returns [True] and [ppocr_keys.txt] holds one
    line per item, in order. *)
Theorem dictionary_lines_written :
  forall (w : World) (d : Path) (text : string) (data v : yaml) (chars : list yaml),
    file_content w d "inference.yml" = Some text ->
    has_file w d "ppocr_keys.txt" = false ->
    safe_load text = Some data ->
    locate_character_dict data = Ok v ->
    py_truthy v = true ->
    py_iter v = Ok chars ->
    exists w',
      extract_character_dict safe_load py_repr d w = (Ok true, w') /\
      file_content w' d "ppocr_keys.txt" = Some (dictionary_text py_repr chars).
Proof.
  intros w d text data v chars Hy Ho Hl Hv Ht Hi.
  destruct (file_content_listing _ _ _ _ Hy) as (es & Hd & Hye).
  pose proof (has_file_false_lookup _ _ _ _ Hd Ho) as Hoe.
  rewrite (extract_character_dict_run d w es text Hd Hye Hoe).
  rewrite Hl, Hv, Ht, Hi. cbv zeta.
  eexists. split; [reflexivity|].
  unfold file_content. simpl. now rewrite lookup_insert_eq, entry_lookup_store.
Qed.

(** X7.  When the value found for [character_dict] is truthy but cannot be
    iterated (a number, [True], a date), extraction returns [False] yet
    leaves an empty [ppocr_keys.txt] behind, and the next run on that world
    returns [True] without reading or writing anything. *)
Theorem failed_write_leaves_empty_output :
  forall (w : World) (d : Path) (text : string) (data v : yaml) (e : exn),
    file_content w d "inference.yml" = Some text ->
    has_file w d "ppocr_keys.txt" = false ->
    safe_load text = Some data ->
    locate_character_dict data = Ok v ->
    py_truthy v = true ->
    py_iter v = Raise e ->
    exists w',
      extract_character_dict safe_load py_repr d w = (Ok false, w') /\
      file_content w' d "ppocr_keys.txt" = Some "" /\
      extract_character_dict safe_load py_repr d w'
        = (Ok true, log (EnterStage ExtractDict) w').
Proof.
  intros w d text data v e Hy Ho Hl Hv Ht Hi.
  destruct (file_content_listing _ _ _ _ Hy) as (es & Hd & Hye).
  pose proof (has_file_false_lookup _ _ _ _ Hd Ho) as Hoe.
  rewrite (extract_character_dict_run d w es text Hd Hye Hoe).
  rewrite Hl, Hv, Ht, Hi. cbv zeta.
  eexists. split; [reflexivity|].
  match goal with |- file_content ?w2 _ _ = _ /\ _ =>
    assert (E2 : fs w2 !! d = Some (Listing (entry_store "ppocr_keys.txt" "" es)))
      by (simpl; apply lookup_insert_eq);
    assert (Hy2 : has_file w2 d "inference.yml" = true);
    [| assert (Ho2 : has_file w2 d "ppocr_keys.txt" = true) ]
  end.
  - rewrite (has_file_lookup _ _ _ _ E2).
    rewrite entry_lookup_store_ne, Hye by discriminate.
    apply bool_decide_eq_true_2. exists text. reflexivity.
  - rewrite (has_file_lookup _ _ _ _ E2), entry_lookup_store.
    apply bool_decide_eq_true_2. exists "". reflexivity.
  - split.
    + unfold file_content. rewrite E2. apply entry_lookup_store.
    + rewrite extract_character_dict_skip.
      * now rewrite Hy2.
      * rewrite E2. discriminate.
      * now rewrite Hy2, Ho2.
Qed.

Lemma first_character_dict_none items :
  forallb lacks_field items = true -> first_character_dict items = YNull.
Proof.
  induction items as [|x items IH]; [reflexivity|]. simpl.
  intros H. apply andb_true_iff in H as [Hx H].
  destruct x; auto. simpl in Hx.
  destruct (dict_lookup "character_dict" kv) as [v|] eqn:E; auto.
  rewrite bool_decide_eq_true_2 in Hx by (exists v; reflexivity). discriminate.
Qed.

Lemma locate_no_dictionary data :
  no_dictionary data ->
  locate_character_dict data = Ok YNull \/
  exists e, locate_character_dict data = Raise e.
Proof.
  destruct data as [| | | s | | items | kv]; simpl; intros H;
    try (right; eexists; reflexivity).
  - unfold locate_character_dict. simpl.
    destruct (is_substring "PostProcess" s); [right; eexists|left]; reflexivity.
  - unfold locate_character_dict. simpl.
    destruct (existsb (key_is "PostProcess") items); [right; eexists|left]; reflexivity.
  - unfold locate_character_dict, py_in, py_getitem.
    destruct (dict_lookup "PostProcess" kv) as [pp|] eqn:E.
    + rewrite bool_decide_eq_true_2 by (exists pp; reflexivity).
      left. destruct pp; try reflexivity.
      * now rewrite first_character_dict_none.
      * unfold dict_get. now rewrite H.
    + rewrite bool_decide_eq_false_2 by (intros [? ?]; discriminate). now left.
Qed.

(** X8.  When [inference.yml] cannot be loaded, or loads as something that
    is not a mapping, or as a mapping in which the dictionary cannot be
    found, extraction returns [False]: the exception of the parser or of
    the lookup does not leave the stage, and no output file appears. *)
Theorem unusable_configuration_fails :
  forall (w : World) (d : Path) (text : string),
    file_content w d "inference.yml" = Some text ->
    has_file w d "ppocr_keys.txt" = false ->
    (safe_load text = None \/
     exists data, safe_load text = Some data /\ no_dictionary data) ->
    exists w',
      extract_character_dict safe_load py_repr d w = (Ok false, w') /\
      fs w' = fs w /\
      has_file w' d "ppocr_keys.txt" = false.
Proof.
  intros w d text Hy Ho Hc.
  destruct (file_content_listing _ _ _ _ Hy) as (es & Hd & Hye).
  pose proof (has_file_false_lookup _ _ _ _ Hd Ho) as Hoe.
  rewrite (extract_character_dict_run d w es text Hd Hye Hoe). cbv zeta.
  destruct Hc as [-> | (data & -> & Hn)].
  - eexists. split; [reflexivity|]. split; [reflexivity | exact Ho].
  - destruct (locate_no_dictionary _ Hn) as [-> | (e & ->)];
      eexists; (split; [reflexivity|]); (split; [reflexivity | exact Ho]).
Qed.

(** X9.  Once a run of the extraction has returned [True], a further run
    on the world it left returns [True] again, and only enters the stage:
    it reads nothing, writes nothing and leaves the file system as it is. *)
Theorem extraction_idempotent :
  forall (w : World) (d : Path) (w' : World),
    extract_character_dict safe_load py_repr d w = (Ok true, w') ->
    extract_character_dict safe_load py_repr d w'
      = (Ok true, log (EnterStage ExtractDict) w').
Proof.
  intros w d w' H.
  destruct (extract_character_dict_cases d w)
    as [(_ & E) | [(Hd & Hs & E) | (es & text & Hd & Hye & Hoe)]].
  - rewrite E in H. discriminate.
  - rewrite E in H. injection H as Hy <-.
    rewrite (extract_character_dict_skip d (log (EnterStage ExtractDict) w) Hd Hs).
    change (has_file (log (EnterStage ExtractDict) w)) with (has_file w).
    now rewrite Hy.
  - rewrite (extract_character_dict_run d w es text Hd Hye Hoe) in H. cbv zeta in H.
    destruct (safe_load text) as [data|]; [|discriminate].
    destruct (locate_character_dict data) as [v|]; [|discriminate].
    destruct (py_truthy v); [|discriminate].
    destruct (py_iter v) as [chars|]; [|discriminate].
    injection H as <-.
    match goal with |- extract_character_dict _ _ _ ?w2 = _ =>
      assert (E2 : fs w2 !! d
                   = Some (Listing (entry_store "ppocr_keys.txt"
                                      (dictionary_text py_repr chars) es)))
        by (simpl; apply lookup_insert_eq);
      assert (Hy2 : has_file w2 d "inference.yml" = true);
      [| assert (Ho2 : has_file w2 d "ppocr_keys.txt" = true) ]
    end.
    + rewrite (has_file_lookup _ _ _ _ E2).
      rewrite entry_lookup_store_ne, Hye by discriminate.
      apply bool_decide_eq_true_2. exists text. reflexivity.
    + rewrite (has_file_lookup _ _ _ _ E2), entry_lookup_store.
      apply bool_decide_eq_true_2. eexists. reflexivity.
    + rewrite extract_character_dict_skip.
      * now rewrite Hy2.
      * rewrite E2. discriminate.
      * now rewrite Hy2, Ho2.
Qed.

(** *** Further properties of the pipeline *)



(** X11.  With the format ONNX in a directory without any [*.onnx] file,
    the pipeline returns at once: every outcome and [success] are [False],
    no stage is entered and the world is the one it started from. *)
Theorem onnx_mode_without_files :
  forall (w : World) (d : Path) (use_fp16 : bool),
    ~ has_onnx_file w d ->
    convert_model tool safe_load py_repr d use_fp16 ONNX w
      = (Ok (conversion_result false false false), w) /\
    conversion_result false false false !! "success" = Some false.
Proof.
  intros w d fp H. split; [|reflexivity].
  rewrite convert_model_onnx.
  destruct (glob_onnx w d) as [|n l] eqn:G; [reflexivity|].
  exfalso. apply H. apply glob_onnx_nonempty. rewrite G. discriminate.
Qed.

(** X12.  In a directory that holds the Paddle files, [inference.yml] and
    the three outputs, the pipeline in PADDLE mode reports all three stages
    and [success] as [True] and does nothing else: the stages are entered
    in order, no process is spawned, no file is opened and the file system
    is left as it was. *)
Theorem converted_model_rerun :
  forall (w : World) (d : Path) (use_fp16 : bool),
    has_paddle_files w d = true ->
    has_file w d "model.onnx" = true ->
    has_file w d "model.mnn" = true ->
    has_file w d "inference.yml" = true ->
    has_file w d "ppocr_keys.txt" = true ->
    exists w',
      convert_model tool safe_load py_repr d use_fp16 PADDLE w
        = (Ok (conversion_result true true true), w') /\
      fs w' = fs w /\
      trace w' = (trace w ++ [EnterStage PaddleToOnnx; EnterStage OnnxToMnn;
                              EnterStage ExtractDict])%list.
Proof.
  intros w d fp Hp Ho Hm Hy Hk.
  pose proof (has_file_not_denied _ _ _ Ho) as Hd.
  rewrite convert_model_paddle.
  rewrite (convert_paddle_to_onnx_readable d w Hd). cbv zeta.
  rewrite Hp, Ho. cbn [negb].
  rewrite (convert_onnx_to_mnn_readable d fp "model.onnx" "model.mnn"
             (log (EnterStage PaddleToOnnx) w) Hd). cbv zeta.
  change (has_file (log (EnterStage PaddleToOnnx) w)) with (has_file w).
  rewrite Ho, Hm. cbn [negb].
  rewrite (extract_character_dict_skip d
             (log (EnterStage OnnxToMnn) (log (EnterStage PaddleToOnnx) w)) Hd).
  - change (has_file (log (EnterStage OnnxToMnn) (log (EnterStage PaddleToOnnx) w)))
      with (has_file w).
    rewrite Hy. eexists. split; [reflexivity|]. split; [reflexivity|].
    simpl. now rewrite <- !app_assoc.
  - change (has_file (log (EnterStage OnnxToMnn) (log (EnterStage PaddleToOnnx) w)))
      with (has_file w).
    now rewrite Hy, Hk.
Qed.

(** Extraction returns, whatever it finds, in a directory the process may
    inspect. *)
Lemma extract_character_dict_returns d w :
  fs w !! d <> Some Denied ->
  exists b w', extract_character_dict safe_load py_repr d w = (Ok b, w').
Proof.
  intros Hd.
  destruct (extract_character_dict_cases d w)
    as [(E & _) | [(_ & _ & ->) | (es & text & E & Hy & Ho)]].
  - congruence.
  - eexists _, _. reflexivity.
  - rewrite (extract_character_dict_run d w es text E Hy Ho). cbv zeta.
    destruct (safe_load text) as [data|];
      [destruct (locate_character_dict data) as [v|];
       [destruct (py_truthy v); [destruct (py_iter v)|]|]|];
      eexists _, _; reflexivity.
Qed.

(** X13.  The export is judged by its exit status alone: when the exporter
    exits with status 0 without leaving a [model.onnx], the pipeline in
    PADDLE mode records [paddle_to_onnx] as [True], enters the ONNX-to-MNN
    stage, which finds its input missing and returns [False] without
    spawning the converter, and still reports [success] as [True]. *)
Theorem export_trusted_on_exit_status :
  forall (w : World) (d : Path) (use_fp16 : bool)
         (fs' : gmap Path Dir) (es' : list (string * string)),
    has_paddle_files w d = true ->
    has_file w d "model.onnx" = false ->
    tool paddle2onnx_cmd d
      (log (Spawn paddle2onnx_cmd d) (log (EnterStage PaddleToOnnx) w))
      = ProcExit 0 fs' ->
    fs' !! d = Some (Listing es') ->
    entry_lookup "model.onnx" es' = None ->
    exists (dict : bool) (w' : World) (evs : list event),
      convert_model tool safe_load py_repr d use_fp16 PADDLE w
        = (Ok (conversion_result true false dict), w') /\
      conversion_result true false dict !! "success" = Some true /\
      trace w' = (trace w ++ [EnterStage PaddleToOnnx; Spawn paddle2onnx_cmd d;
                              EnterStage OnnxToMnn] ++ evs)%list /\
      forall cmd cwd, ~ In (Spawn cmd cwd) evs.
Proof.
  intros w d fp fs' es' Hp Ho Ht Hd' Hn.
  assert (Hd : fs w !! d <> Some Denied).
  { apply andb_true_iff in Hp as [Hj _]. eapply has_file_not_denied, Hj. }
  rewrite convert_model_paddle.
  rewrite (convert_paddle_to_onnx_readable d w Hd). cbv zeta.
  rewrite Hp, Ho. cbn [negb]. fold paddle2onnx_cmd. rewrite Ht.
  change (0 =? 0)%Z with true. cbv iota.
  set (w1 := set_fs fs' _).
  assert (Hd1 : fs w1 !! d <> Some Denied) by (simpl; rewrite Hd'; discriminate).
  rewrite (convert_onnx_to_mnn_readable d fp "model.onnx" "model.mnn" w1 Hd1). cbv zeta.
  assert (Hm : has_file w1 d "model.onnx" = false).
  { rewrite (has_file_lookup w1 d _ es' Hd'), Hn.
    apply bool_decide_eq_false_2. intros [? ?]; discriminate. }
  rewrite Hm. cbn [negb].
  destruct (extract_character_dict_returns d (log (EnterStage OnnxToMnn) w1) Hd1)
    as (dict & w' & E).
  rewrite E. apply extract_character_dict_trace in E as (evs & T & F).
  exists dict, w', (EnterStage ExtractDict :: evs). split; [reflexivity|].
  split; [now destruct dict|]. split.
  - rewrite T. simpl. now rewrite <- !app_assoc.
  - intros cmd cwd [?|Hin]; [discriminate|].
    rewrite List.Forall_forall in F. apply F in Hin as [?|?]; discriminate.
Qed.


(** *** Further properties of the batch *)

(** X15.  [sorted] returns the directories it was given, each as many
    times as it was given, in an order in which no directory comes before
    one that is below it in the order of paths. *)
Theorem sorted_is_ordered_permutation :
  forall (model_dirs : list Path),
    Permutation (sorted model_dirs) model_dirs /\
    StronglySorted path_le (sorted model_dirs).
Proof.
  intros l. split; [apply sorted_perm | apply sorted_ordered].
Qed.

(** Each round of the loop counts its model once, as a success or as a
    failure. *)
Lemma main_loop_accounts fp fmt dirs : forall st w st' w',
  main_loop tool safe_load py_repr fp fmt dirs st w = (Ok st', w') ->
  success_count st' + List.length (failed_models st')
  = success_count st + List.length (failed_models st) + List.length dirs /\
  exists names, failed_models st' = (failed_models st ++ names)%list /\
                sublist names (List.map path_name dirs).
Proof.
  induction dirs as [|m dirs IH]; intros st w st' w' H.
  - injection H as <- <-. split; [simpl; lia|].
    exists []. split; [now rewrite app_nil_r | constructor].
  - simpl in H. unfold bind in H.
    destruct (loop_body_returns fp fmt st m w) as (st1 & w1 & E & Hst).
    rewrite E in H. destruct (IH _ _ _ _ H) as (Hc & names & Hf & Hs).
    destruct Hst as [-> | ->]; simpl in Hc, Hf.
    + split; [simpl; lia|]. exists names. split; [exact Hf|].
      simpl. now apply sublist_cons.
    + rewrite length_app in Hc. simpl in Hc. split; [simpl; lia|].
      exists (path_name m :: names). split; [now rewrite Hf, <- app_assoc|].
      simpl. now apply sublist_skip.
Qed.

(** The batch runs to its end with every directory counted once. *)
Lemma batch_counts_every_model_aux fp fmt (model_dirs : list Path) w :
  exists (st : BatchState) (w' : World),
    main_batch tool safe_load py_repr fp fmt model_dirs w = (Ok st, w') /\
    success_count st + List.length (failed_models st) = List.length model_dirs.
Proof.
  unfold main_batch.
  destruct (main_loop_returns fp fmt (sorted model_dirs) (mkBatch 0 []) w)
    as (st & w' & later & E & _ & _).
  exists st, w'. split; [exact E|].
  destruct (main_loop_accounts _ _ _ _ _ _ _ E) as (Hc & _). simpl in Hc.
  rewrite Hc. apply Permutation_length, sorted_perm.
Qed.

(** X16.  The batch always runs to its end, and when it ends every model
    directory has been counted exactly once: the number of successes plus
    the number of failed names is the number of directories given. *)
Theorem batch_counts_every_model :
  forall (w : World) (use_fp16 : bool) (input_format : InputFormat)
         (model_dirs : list Path),
    exists (st : BatchState) (w' : World),
      main_batch tool safe_load py_repr use_fp16 input_format model_dirs w
        = (Ok st, w') /\
      success_count st + List.length (failed_models st) = List.length model_dirs.
Proof.
  intros w fp fmt l. apply batch_counts_every_model_aux.
Qed.

(** X17.  The failed names the batch reports are names of the given
    directories, listed in the order of the sorted directories, each
    directory giving at most one of them. *)
Theorem failed_names_in_sorted_order :
  forall (w : World) (use_fp16 : bool) (input_format : InputFormat)
         (model_dirs : list Path) (st : BatchState) (w' : World),
    main_batch tool safe_load py_repr use_fp16 input_format model_dirs w
      = (Ok st, w') ->
    sublist (failed_models st) (List.map path_name (sorted model_dirs)).
Proof.
  intros w fp fmt l st w' E. unfold main_batch in E.
  destruct (main_loop_accounts _ _ _ _ _ _ _ E) as (_ & names & Hf & Hs).
  simpl in Hf. now rewrite Hf.
Qed.

(** *** The dependency check and the run of [main] *)

Variable missing : list string -> bool.

Lemma bind_run {A B} (m : M A) (k : A -> M B) (w : World) :
  bind m k w
  = match m w with
    | (Ok a, w') => k a w'
    | (Raise e, w') => (Raise e, w')
    end.
Proof. reflexivity. Qed.

Lemma version_check_cases cmd cwd w :
  try_except (subprocess_run_checked tool missing cmd cwd >> ret true)
             (except_not_available (ret false)) w
  = match tool cmd cwd (log (Spawn cmd cwd) w) with
    | ProcError =>
        if missing cmd then (Ok false, log (Spawn cmd cwd) w)
        else (Raise PermissionError, log (Spawn cmd cwd) w)
    | ProcExit rc fs' => (Ok (rc =? 0)%Z, set_fs fs' (log (Spawn cmd cwd) w))
    end.
Proof.
  unfold try_except, bind, subprocess_run_checked.
  destruct (tool cmd cwd (log (Spawn cmd cwd) w)) as [|rc fs'];
    [destruct (missing cmd); reflexivity|].
  destruct (rc =? 0)%Z; reflexivity.
Qed.

(** X18.  The dependency check asks [paddle2onnx] for its version first:
    when that command is missing or exits with a status other than 0 the
    check returns [False] and [mnnconvert] is not run at all. *)
Theorem dependency_check_stops_at_first :
  forall (cwd : Path) (w : World),
    let cmd := ["paddle2onnx"; "--version"] in
    let w1 := log (Spawn cmd cwd) w in
    (tool cmd cwd w1 = ProcError /\ missing cmd = true) \/
    (exists rc fs', tool cmd cwd w1 = ProcExit rc fs' /\ rc <> 0%Z) ->
    exists w',
      check_dependencies tool missing cwd w = (Ok false, w') /\
      trace w' = (trace w ++ [Spawn cmd cwd])%list.
Proof.
  intros cwd w. cbv zeta. intros H. unfold check_dependencies.
  rewrite bind_run, version_check_cases.
  destruct H as [(-> & ->) | (rc & fs' & -> & Hrc)].
  - eexists. split; reflexivity.
  - apply Z.eqb_neq in Hrc. rewrite Hrc. eexists. split; reflexivity.
Qed.


(** X20.  [main] ends by [sys.exit(1)] when the dependency check returns
    [False], without looking at any model; by [sys.exit(0)] when the check
    passes and no model directory was given; and otherwise it reaches its
    last line, whatever the models did, with every directory counted as a
    success or as a failure. *)
Theorem main_run_ends :
  forall (cwd : Path) (w : World) (use_fp16 : bool) (input_format : InputFormat)
         (model_dirs : list Path) (available : bool) (w1 : World),
    check_dependencies tool missing cwd w = (Ok available, w1) ->
    exists (e : main_end) (w' : World),
      main_run tool safe_load py_repr missing cwd use_fp16 input_format model_dirs w
        = (Ok e, w') /\
      (available = false -> e = SysExit 1 /\ w' = w1) /\
      (available = true -> model_dirs = [] -> e = SysExit 0 /\ w' = w1) /\
      (available = true -> model_dirs <> [] ->
       exists st, e = Finished st /\
         success_count st + List.length (failed_models st) = List.length model_dirs).
Proof.
  intros cwd w fp fmt l b w1 H. unfold main_run. rewrite bind_run, H.
  destruct b; cbn [negb].
  - destruct l as [|m l].
    + exists (SysExit 0), w1. split; [reflexivity|].
      split; [discriminate|]. split; [auto|]. congruence.
    + destruct (batch_counts_every_model_aux fp fmt (m :: l) w1) as (st & w' & E & Hc).
      rewrite bind_run, E. exists (Finished st), w'. split; [reflexivity|].
      split; [discriminate|]. split; [discriminate|]. intros _ _. exists st. auto.
  - exists (SysExit 1), w1. split; [reflexivity|].
    split; [auto|]. split; discriminate.
Qed.

(** *** Names and the whole conversion *)

(** X21.  For every file the glob for [*.onnx] finds, the output name the
    pipeline derives from it ends in [.mnn] and differs from the name of
    the input: the converter is never asked to write over its input, and
    the input is never taken for an output that is already there. *)
Theorem output_name_differs_from_input :
  forall (w : World) (d : Path) (onnx_file : string),
    In onnx_file (glob_onnx w d) ->
    endswith (stem onnx_file +:+ ".mnn") ".mnn" = true /\
    stem onnx_file +:+ ".mnn" <> onnx_file.
Proof.
  intros w d n Hin. split; [apply endswith_append|].
  apply glob_onnx_In in Hin as [_ He].
  destruct (endswith_split _ _ He) as (base & Hb).
  rewrite Hb at 2. apply mnn_name_not_onnx.
Qed.

(** X22.  On a Paddle model not yet converted, with an exporter that exits
    with status 0 and leaves [model.onnx], and a converter that exits with
    status 0, the pipeline in PADDLE mode runs the exporter, then the
    converter on [model.onnx] and [model.mnn], once each and in this order,
    records both stages as [True], and then goes on to the dictionary
    without spawning anything more. *)
Theorem paddle_pipeline_runs_both_tools :
  forall (w : World) (d : Path) (use_fp16 : bool) (fs1 fs2 : gmap Path Dir),
    has_paddle_files w d = true ->
    has_file w d "model.onnx" = false ->
    let w1 := log (Spawn paddle2onnx_cmd d) (log (EnterStage PaddleToOnnx) w) in
    tool paddle2onnx_cmd d w1 = ProcExit 0 fs1 ->
    let w2 := log (EnterStage OnnxToMnn) (set_fs fs1 w1) in
    let cmd := mnnconvert_cmd use_fp16 "model.onnx" "model.mnn" in
    has_file w2 d "model.onnx" = true ->
    has_file w2 d "model.mnn" = false ->
    tool cmd d (log (Spawn cmd d) w2) = ProcExit 0 fs2 ->
    fs2 !! d <> Some Denied ->
    exists (dict : bool) (w' : World) (evs : list event),
      convert_model tool safe_load py_repr d use_fp16 PADDLE w
        = (Ok (conversion_result true true dict), w') /\
      trace w' = (trace w ++ [EnterStage PaddleToOnnx; Spawn paddle2onnx_cmd d;
                              EnterStage OnnxToMnn; Spawn cmd d] ++ evs)%list /\
      forall c cwd, ~ In (Spawn c cwd) evs.
Proof.
  intros w d fp fs1 fs2 Hp Ho w1 Ht1 w2 cmd Hi Hm Ht2 Hd2.
  assert (Hd : fs w !! d <> Some Denied).
  { apply andb_true_iff in Hp as [Hj _]. eapply has_file_not_denied, Hj. }
  rewrite convert_model_paddle.
  rewrite (convert_paddle_to_onnx_readable d w Hd). cbv zeta.
  rewrite Hp, Ho. cbn [negb]. fold paddle2onnx_cmd. fold w1. rewrite Ht1.
  change (0 =? 0)%Z with true. cbv iota.
  assert (Hd1 : fs (set_fs fs1 w1) !! d <> Some Denied)
    by (apply (has_file_not_denied w2 d "model.onnx" Hi)).
  rewrite (convert_onnx_to_mnn_readable d fp "model.onnx" "model.mnn" _ Hd1). cbv zeta.
  fold w2. change (has_file (set_fs fs1 w1)) with (has_file w2).
  rewrite Hi, Hm. cbn [negb]. fold (mnnconvert_cmd fp "model.onnx" "model.mnn").
  fold cmd. rewrite Ht2. change (0 =? 0)%Z with true.
  set (w3 := set_fs fs2 _).
  destruct (extract_character_dict_returns d w3 Hd2) as (dict & w' & E).
  rewrite E. apply extract_character_dict_trace in E as (evs & T & F).
  exists dict, w', (EnterStage ExtractDict :: evs). split; [reflexivity|]. split.
  - rewrite T. unfold w3, w2, w1. simpl. now rewrite <- !app_assoc.
  - intros c cwd [?|Hin]; [discriminate|].
    rewrite List.Forall_forall in F. apply F in Hin as [?|?]; discriminate.
Qed.

End Properties.

(** ** The properties on the sample inputs *)

(** The converted model: all three stages return [True] and do nothing. *)
Lemma stage_idempotent_done :
  convert_paddle_to_onnx failing_tool done_dir sample_world
    = (Ok true, log (EnterStage PaddleToOnnx) sample_world) /\
  convert_onnx_to_mnn failing_tool done_dir true "model.onnx" "model.mnn" sample_world
    = (Ok true, log (EnterStage OnnxToMnn) sample_world) /\
  extract_character_dict sample_load sample_repr done_dir sample_world
    = (Ok true, log (EnterStage ExtractDict) sample_world).
Proof.
  destruct (stage_idempotent failing_tool sample_load sample_repr sample_world done_dir)
    as (H1 & H2 & H3).
  split; [|split].
  - apply H1; reflexivity.
  - apply H2; reflexivity.
  - apply H3; reflexivity.
Defined.

(** The converted model holds both Paddle files and [model.onnx]: PADDLE. *)
Lemma detection_precedence_done :
  detect_input_format done_dir sample_world = (Ok (Some PADDLE), sample_world).
Proof.
  apply (detection_precedence sample_world done_dir).
  - reflexivity.
  - exists "model.onnx". split; reflexivity.
Defined.

(** The unconverted Paddle model with failing tools: the export fails, the
    conversion to MNN is skipped, the dictionary is extracted. *)
Lemma paddle_short_circuit_rec :
  let run := convert_model failing_tool sample_load sample_repr rec_dir true AUTO
               sample_world in
  exists evs p2o w1,
    trace (snd run) = (trace sample_world ++ evs)%list /\
    convert_paddle_to_onnx failing_tool rec_dir sample_world = (Ok p2o, w1) /\
    conversion_result false false true !! "paddle_to_onnx" = Some p2o /\
    In (EnterStage ExtractDict) evs /\
    (p2o = false ->
       conversion_result false false true !! "onnx_to_mnn" = Some false /\
       ~ In (EnterStage OnnxToMnn) evs /\
       (forall cmd cwd, In (Spawn cmd cwd) evs -> head cmd = Some "paddle2onnx") /\
       exists dict,
         extract_character_dict sample_load sample_repr rec_dir w1 = (Ok dict, snd run) /\
         conversion_result false false true !! "extract_dict" = Some dict).
Proof.
  intros run.
  apply (paddle_short_circuit failing_tool sample_load sample_repr
           sample_world rec_dir true AUTO).
  - right. split; reflexivity.
  - vm_compute. reflexivity.
Defined.

(** The same run: only the dictionary is extracted, and the model counts as
    a success. *)
Lemma lenient_success_rec :
  let run := convert_model failing_tool sample_load sample_repr rec_dir true PADDLE
               sample_world in
  exists (success : bool) (evs : list event),
    conversion_result false false true !! "success" = Some success /\
    trace (snd run) = (trace sample_world ++ evs)%list /\
    (success = true <->
       exists s, In (EnterStage s) evs /\
                 conversion_result false false true !! stage_key s = Some true) /\
    (conversion_result false false true !! "extract_dict" = Some true -> success = true).
Proof.
  intros run.
  apply (lenient_success failing_tool sample_load sample_repr
           sample_world rec_dir true PADDLE).
  vm_compute. reflexivity.
Defined.

(** The empty directory: no format, no stage, failure. *)
Lemma undetectable_format_fails_empty :
  exists (r : gmap string bool) (w' : World),
    convert_model failing_tool sample_load sample_repr empty_dir true AUTO sample_world
      = (Ok r, w') /\
    r !! "success" = Some false /\
    fs w' = fs sample_world /\
    trace w' = trace sample_world /\
    forall s, r !! stage_key s = None.
Proof.
  apply (undetectable_format_fails failing_tool sample_load sample_repr
           sample_world empty_dir true sample_world).
  vm_compute. reflexivity.
Defined.

(** The ONNX model: [foo.onnx] comes first in the scan and gives [foo.mnn]. *)
Lemma direct_onnx_naming_det :
  (exists base, "foo.onnx" = base +:+ ".onnx" /\
                (base <> "" -> stem "foo.onnx" +:+ ".mnn" = base +:+ ".mnn")) /\
  (exists o2m w',
     convert_onnx_to_mnn failing_tool det_dir true "foo.onnx"
       (stem "foo.onnx" +:+ ".mnn") sample_world = (Ok o2m, w') /\
     convert_model failing_tool sample_load sample_repr det_dir true AUTO sample_world
     = (Ok (conversion_result false o2m false), w')) /\
  (has_file sample_world det_dir (stem "foo.onnx" +:+ ".mnn") = false ->
   exists r w',
     convert_model failing_tool sample_load sample_repr det_dir true AUTO sample_world
       = (Ok r, w') /\
     trace w'
     = (trace sample_world ++
        [EnterStage OnnxToMnn;
         Spawn (["mnnconvert"; "-f"; "ONNX"; "--modelFile"; "foo.onnx";
                 "--MNNModel"; stem "foo.onnx" +:+ ".mnn"; "--bizCode"; "mnn"]
                ++ ["--fp16"]) det_dir])%list).
Proof.
  apply (direct_onnx_naming failing_tool sample_load sample_repr
           sample_world det_dir true AUTO "foo.onnx" ["bar.onnx"]).
  - right. split; reflexivity.
  - reflexivity.
Defined.

(** The unconverted Paddle model: the dictionary [a], [b], [c] is written. *)
Lemma dictionary_written_rec :
  exists w',
    extract_character_dict sample_load sample_repr rec_dir sample_world = (Ok true, w') /\
    file_content w' rec_dir "ppocr_keys.txt"
      = Some (entry_line sample_repr (YStr "a") +:+ entry_line sample_repr (YStr "b")
              +:+ entry_line sample_repr (YStr "c")) /\
    entry_line sample_repr YNull = nl /\
    (forall s, entry_line sample_repr (YStr s) = s +:+ nl) /\
    trace w' = (trace sample_world ++
                [EnterStage ExtractDict; OpenRead rec_dir "inference.yml";
                 OpenWrite rec_dir "ppocr_keys.txt"])%list.
Proof.
  apply (dictionary_written sample_load sample_repr sample_world rec_dir
           mapping_text mapping_config).
  - reflexivity.
  - reflexivity.
  - reflexivity.
  - eapply in_mapping; reflexivity.
Defined.

(** The converted model already holds [ppocr_keys.txt]: extraction returns
    [True] and the old content stays, so the three entries are not what the
    file holds. *)
Lemma dictionary_not_rewritten :
  ~ dictionary_always_written sample_load sample_repr.
Proof.
  intros H.
  destruct (H sample_world done_dir list_text list_config (YStr "a") (YStr "b") (YStr "c"))
    as (w' & E & C).
  - reflexivity.
  - reflexivity.
  - eapply (in_list _ _ _ []); reflexivity.
  - vm_compute in E. injection E as <-. vm_compute in C. discriminate.
Qed.

(** The directory with an empty dictionary: extraction fails, nothing is
    written. *)
Lemma falsy_dictionary_fails_blank :
  exists w',
    extract_character_dict sample_load sample_repr blank_dir sample_world = (Ok false, w') /\
    fs w' = fs sample_world /\
    has_file w' blank_dir "ppocr_keys.txt" = false /\
    trace w' = (trace sample_world ++
                [EnterStage ExtractDict; OpenRead blank_dir "inference.yml"])%list.
Proof.
  apply (falsy_dictionary_fails sample_load sample_repr sample_world blank_dir
           empty_text empty_config (YList [])).
  - reflexivity.
  - reflexivity.
  - reflexivity.
  - eapply in_mapping; reflexivity.
  - left. reflexivity.
Defined.

(** The ONNX model: the format is detected and the result has all four keys. *)
Lemma result_population_det :
  let run := convert_model failing_tool sample_load sample_repr det_dir true AUTO
               sample_world in
  ((exists f, resolves_to AUTO det_dir sample_world f) ->
   fully_populated (conversion_result false false false)) /\
  (AUTO = AUTO -> detect_input_format det_dir sample_world = (Ok None, sample_world) ->
   conversion_result false false false = {[ "success" := false ]}).
Proof.
  intros run.
  apply (result_population failing_tool sample_load sample_repr
           sample_world det_dir true AUTO _ (snd run)).
  vm_compute. reflexivity.
Defined.

(** The empty directory: the result returned holds [success] only. *)
Lemma result_not_populated :
  convert_model failing_tool sample_load sample_repr empty_dir true AUTO sample_world
    = (Ok {[ "success" := false ]}, sample_world) /\
  ({[ "success" := false ]} : gmap string bool) !! "paddle_to_onnx" = None /\
  ~ always_fully_populated failing_tool sample_load sample_repr.
Proof.
  assert (E : convert_model failing_tool sample_load sample_repr empty_dir true AUTO
                sample_world = (Ok {[ "success" := false ]}, sample_world))
    by (vm_compute; reflexivity).
  split; [exact E|]. split; [reflexivity|].
  intros H. destruct (H _ _ _ _ _ _ E) as (_ & K).
  destruct (K "paddle_to_onnx") as (b & Hb); [now left|].
  vm_compute in Hb. discriminate.
Qed.

(** A batch of three: the empty directory fails, the locked one raises and
    is recorded, the Paddle model after it is still processed. *)
Lemma batch_isolation_sample :
  exists (st3 : BatchState) (w3 : World) (later : list string),
    main_batch failing_tool sample_load sample_repr true AUTO
      [rec_dir; locked_dir; empty_dir] sample_world = (Ok st3, w3) /\
    main_loop failing_tool sample_load sample_repr true AUTO [rec_dir]
      (record_failure (path_name locked_dir) (mkBatch 0 ["empty"])) sample_world
      = (Ok st3, w3) /\
    failed_models st3 = (["empty"] ++ path_name locked_dir :: later)%list /\
    0 <= success_count st3.
Proof.
  apply (batch_isolation failing_tool sample_load sample_repr sample_world true AUTO
           [rec_dir; locked_dir; empty_dir] [empty_dir] [rec_dir] locked_dir
           (mkBatch 0 ["empty"]) sample_world PermissionError sample_world).
  - reflexivity.
  - vm_compute. reflexivity.
  - vm_compute. reflexivity.
Defined.

(** ** The further properties on the sample inputs *)

Lemma paddle_to_onnx_missing_input_det :
  convert_paddle_to_onnx failing_tool det_dir sample_world
    = (Ok false, log (EnterStage PaddleToOnnx) sample_world).
Proof.
  apply (paddle_to_onnx_missing_input failing_tool sample_world det_dir).
  - vm_compute. discriminate.
  - reflexivity.
Defined.

Lemma paddle_to_onnx_runs_exporter_rec :
  let w1 := log (Spawn paddle2onnx_cmd rec_dir)
              (log (EnterStage PaddleToOnnx) sample_world) in
  exists (b : bool) (w' : World),
    convert_paddle_to_onnx working_tool rec_dir sample_world = (Ok b, w') /\
    trace w' = (trace sample_world
                ++ [EnterStage PaddleToOnnx; Spawn paddle2onnx_cmd rec_dir])%list /\
    (b = true <-> exits_zero working_tool paddle2onnx_cmd rec_dir w1) /\
    fs w' = fs_after working_tool paddle2onnx_cmd rec_dir w1.
Proof.
  apply (paddle_to_onnx_runs_exporter working_tool sample_world rec_dir);
    reflexivity.
Defined.

Lemma onnx_to_mnn_missing_input_empty :
  convert_onnx_to_mnn failing_tool empty_dir true "model.onnx" "model.mnn" sample_world
    = (Ok false, log (EnterStage OnnxToMnn) sample_world).
Proof.
  apply (onnx_to_mnn_missing_input failing_tool sample_world empty_dir true).
  - vm_compute. discriminate.
  - reflexivity.
Defined.

Lemma onnx_to_mnn_runs_converter_det :
  let cmd := mnnconvert_cmd false "foo.onnx" "foo.mnn" in
  let w1 := log (Spawn cmd det_dir) (log (EnterStage OnnxToMnn) sample_world) in
  exists (b : bool) (w' : World),
    convert_onnx_to_mnn working_tool det_dir false "foo.onnx" "foo.mnn" sample_world
      = (Ok b, w') /\
    trace w' = (trace sample_world ++ [EnterStage OnnxToMnn; Spawn cmd det_dir])%list /\
    (List.last cmd "" = "--fp16" <-> false = true) /\
    (b = true <-> exits_zero working_tool cmd det_dir w1) /\
    fs w' = fs_after working_tool cmd det_dir w1.
Proof.
  apply (onnx_to_mnn_runs_converter working_tool sample_world det_dir false
           "foo.onnx" "foo.mnn"); reflexivity.
Defined.

Lemma extraction_touches_only_output_rec :
  let run := extract_character_dict sample_load sample_repr rec_dir sample_world in
  (forall d' n, d' <> rec_dir \/ n <> "ppocr_keys.txt" ->
                file_content (snd run) d' n = file_content sample_world d' n) /\
  exists evs, trace (snd run) = (trace sample_world ++ evs)%list /\
              forall cmd cwd, ~ In (Spawn cmd cwd) evs.
Proof.
  intros run.
  apply (extraction_touches_only_output sample_load sample_repr
           sample_world rec_dir (fst run) (snd run)).
  vm_compute. reflexivity.
Defined.

Lemma dictionary_lines_written_string :
  exists w',
    extract_character_dict more_load sample_repr string_dir more_world = (Ok true, w') /\
    file_content w' string_dir "ppocr_keys.txt"
      = Some (dictionary_text sample_repr [YStr "a"; YStr "b"; YStr "c"]).
Proof.
  apply (dictionary_lines_written more_load sample_repr more_world string_dir
           string_text string_config (YStr "abc")); reflexivity.
Defined.

Lemma failed_write_leaves_empty_output_number :
  exists w',
    extract_character_dict more_load sample_repr number_dir more_world = (Ok false, w') /\
    file_content w' number_dir "ppocr_keys.txt" = Some "" /\
    extract_character_dict more_load sample_repr number_dir w'
      = (Ok true, log (EnterStage ExtractDict) w').
Proof.
  apply (failed_write_leaves_empty_output more_load sample_repr more_world number_dir
           number_text number_config (YInt 5) TypeError); reflexivity.
Defined.

Lemma unusable_configuration_fails_broken :
  exists w',
    extract_character_dict more_load sample_repr broken_dir more_world = (Ok false, w') /\
    fs w' = fs more_world /\
    has_file w' broken_dir "ppocr_keys.txt" = false.
Proof.
  apply (unusable_configuration_fails more_load sample_repr more_world broken_dir
           broken_text).
  - reflexivity.
  - reflexivity.
  - left. reflexivity.
Defined.

Lemma extraction_idempotent_rec :
  let w' := snd (extract_character_dict sample_load sample_repr rec_dir sample_world) in
  extract_character_dict sample_load sample_repr rec_dir w'
    = (Ok true, log (EnterStage ExtractDict) w').
Proof.
  intros w'.
  apply (extraction_idempotent sample_load sample_repr sample_world rec_dir w').
  vm_compute. reflexivity.
Defined.

Lemma onnx_mode_without_files_rec :
  convert_model failing_tool sample_load sample_repr rec_dir true ONNX sample_world
    = (Ok (conversion_result false false false), sample_world) /\
  conversion_result false false false !! "success" = Some false.
Proof.
  apply (onnx_mode_without_files failing_tool sample_load sample_repr
           sample_world rec_dir true).
  intros (n & Hn & He). apply has_file_entries in Hn. vm_compute in Hn.
  destruct Hn as [<-|[<-|[<-|[]]]]; discriminate.
Defined.

Lemma converted_model_rerun_done :
  exists w',
    convert_model failing_tool sample_load sample_repr done_dir true PADDLE sample_world
      = (Ok (conversion_result true true true), w') /\
    fs w' = fs sample_world /\
    trace w' = (trace sample_world ++ [EnterStage PaddleToOnnx; EnterStage OnnxToMnn;
                                       EnterStage ExtractDict])%list.
Proof.
  apply (converted_model_rerun failing_tool sample_load sample_repr
           sample_world done_dir true); reflexivity.
Defined.

Lemma export_trusted_on_exit_status_rec :
  exists (dict : bool) (w' : World) (evs : list event),
    convert_model idle_tool sample_load sample_repr rec_dir true PADDLE sample_world
      = (Ok (conversion_result true false dict), w') /\
    conversion_result true false dict !! "success" = Some true /\
    trace w' = (trace sample_world
                ++ [EnterStage PaddleToOnnx; Spawn paddle2onnx_cmd rec_dir;
                    EnterStage OnnxToMnn] ++ evs)%list /\
    forall cmd cwd, ~ In (Spawn cmd cwd) evs.
Proof.
  apply (export_trusted_on_exit_status idle_tool sample_load sample_repr
           sample_world rec_dir true sample_fs
           [("inference.json", "{}"); ("inference.pdiparams", "");
            ("inference.yml", mapping_text)]); reflexivity.
Defined.


Lemma failed_names_in_sorted_order_sample :
  let run := main_batch failing_tool sample_load sample_repr true AUTO
               [rec_dir; locked_dir; empty_dir] sample_world in
  sublist ["empty"; "locked"]
          (List.map path_name (sorted [rec_dir; locked_dir; empty_dir])).
Proof.
  intros run.
  apply (failed_names_in_sorted_order failing_tool sample_load sample_repr
           sample_world true AUTO [rec_dir; locked_dir; empty_dir]
           (mkBatch 1 ["empty"; "locked"]) (snd run)).
  vm_compute. reflexivity.
Defined.

Lemma dependency_check_stops_at_first_failing :
  exists w',
    check_dependencies failing_tool all_missing script_dir sample_world = (Ok false, w') /\
    trace w' = (trace sample_world
                ++ [Spawn ["paddle2onnx"; "--version"] script_dir])%list.
Proof.
  apply (dependency_check_stops_at_first failing_tool all_missing
           script_dir sample_world).
  right. exists 1%Z, sample_fs. split; [reflexivity | discriminate].
Defined.


Lemma main_run_ends_sample :
  let w1 := snd (check_dependencies idle_tool all_missing script_dir sample_world) in
  exists (e : main_end) (w' : World),
    main_run idle_tool sample_load sample_repr all_missing script_dir true AUTO
      [rec_dir; locked_dir; empty_dir] sample_world = (Ok e, w') /\
    (true = false -> e = SysExit 1 /\ w' = w1) /\
    (true = true -> [rec_dir; locked_dir; empty_dir] = [] -> e = SysExit 0 /\ w' = w1) /\
    (true = true -> [rec_dir; locked_dir; empty_dir] <> [] ->
     exists st, e = Finished st /\
       success_count st + List.length (failed_models st)
       = List.length [rec_dir; locked_dir; empty_dir]).
Proof.
  intros w1.
  apply (main_run_ends idle_tool sample_load sample_repr all_missing
           script_dir sample_world true AUTO [rec_dir; locked_dir; empty_dir] true w1).
  vm_compute. reflexivity.
Defined.

Lemma output_name_differs_from_input_det :
  endswith (stem "bar.onnx" +:+ ".mnn") ".mnn" = true /\
  stem "bar.onnx" +:+ ".mnn" <> "bar.onnx".
Proof.
  apply (output_name_differs_from_input sample_world det_dir "bar.onnx").
  vm_compute. auto.
Defined.

Lemma paddle_pipeline_runs_both_tools_rec :
  let cmd := mnnconvert_cmd true "model.onnx" "model.mnn" in
  exists (dict : bool) (w' : World) (evs : list event),
    convert_model working_tool sample_load sample_repr rec_dir true PADDLE sample_world
      = (Ok (conversion_result true true dict), w') /\
    trace w' = (trace sample_world
                ++ [EnterStage PaddleToOnnx; Spawn paddle2onnx_cmd rec_dir;
                    EnterStage OnnxToMnn; Spawn cmd rec_dir] ++ evs)%list /\
    forall c cwd, ~ In (Spawn c cwd) evs.
Proof.
  apply (paddle_pipeline_runs_both_tools working_tool sample_load sample_repr
           sample_world rec_dir true
           (with_file rec_dir "model.onnx" sample_fs)
           (with_file rec_dir "model.mnn" (with_file rec_dir "model.onnx" sample_fs))).
  - reflexivity.
  - reflexivity.
  - reflexivity.
  - reflexivity.
  - reflexivity.
  - reflexivity.
  - vm_compute. discriminate.
Defined.
